(** * Sendbird QA portfolio: test-fixture lifecycle, identifier generation,
      promise wrapping and the REST client wrapper

    A shallow embedding of the TypeScript helpers and test hooks of the
    repository, followed by the properties proved about them.

    Definitions
    - [Js]: values, truthiness, [||], [substring], number-to-string;
    - [TestId]: [generateTestId] of both helper files;
    - [Remote]: requests, vendor calls, errors, and the state-and-exception
      monad of sequential [async] code with [try]/[catch] and [for ... of];
    - [Uri]: [encodeURIComponent] and the URL resolution of axios;
    - [SendbirdApi]: [api-tests/utils/sendbird-api.ts];
    - [SendbirdHelper]: [initSendbird], [connectUser], [disconnectUser];
    - [UserCreateSuite], [ChannelCreateSuite], [SdkMessageSuite]: the
      variables, teardown hooks and test bodies of three suites;
    - [Observe]: what a run issues, and sample vendors;
    - [NegativeTests]: the [try]/[catch] negative-path test bodies;
    - [PromiseWrap]: the inline promise wrapper around [sendUserMessage].

    - [Coerce], [ChannelCreateTests], [ChannelListSuite],
      [ChannelMemberSuite], [UserCreateTests], [UserListSuite],
      [SdkConnectionSuite], [UserDataDriven]: more of the suites.

    Properties
    - [TestIdFacts], [ApiFacts], [HookFacts], [TeardownClaims],
      [PromiseFacts], [HelperFacts], [NegativeFacts];
    - [EncodingFacts], [PrefixFacts], [WrapperFacts], [SessionFacts],
      [MoreHookFacts], [LifecycleFacts], [VerdictFacts], [DataDrivenFacts]. *)

From Stdlib Require Import String Ascii List Bool Arith ZArith NArith Lia.
From Stdlib Require Import DecimalString DecimalN.
Import ListNotations.

Local Open Scope string_scope.
Local Open Scope list_scope.

(* ===================================================================== *)
(** * The JavaScript fragment *)
(* ===================================================================== *)

Module Js.

(** ** Values *)

(** The values that flow through the helpers: request bodies are object
    literals whose fields are strings, numbers, booleans, arrays of
    strings, or [undefined] when an optional argument was not passed. *)
Inductive JsVal : Type :=
| JUndefined
| JBool (b : bool)
| JNum (n : Z)
| JStr (s : string)
| JStrs (l : list string).

(** An object literal: its fields in source order. *)
Definition JsObject : Type := list (string * JsVal).

(** Property lookup [o.k]; a missing property reads as [undefined]. *)
Fixpoint get_prop (k : string) (o : JsObject) : JsVal :=
  match o with
  | [] => JUndefined
  | (k', v) :: o' => if String.eqb k k' then v else get_prop k o'
  end.


(** An optional string parameter [p?: string]: [None] is [undefined]. *)
Definition OptStr : Type := option string.

Definition val_of_opt (o : OptStr) : JsVal :=
  match o with
  | None => JUndefined
  | Some s => JStr s
  end.

(** ToBoolean on an optional string: [undefined] and [''] are falsy. *)
Definition truthy (o : OptStr) : bool :=
  match o with
  | None => false
  | Some s => negb (String.eqb s "")
  end.

(** [a || b] where [a] is an optional string and [b] a string. *)
Definition or_else (a : OptStr) (b : string) : string :=
  match a with
  | Some s => if truthy a then s else b
  | None => b
  end.

(** ** Strings *)

(** [s.substring(start)]: the characters from index [start] on, the empty
    string when [start] is past the end. *)
Fixpoint substring_from (start : nat) (s : string) : string :=
  match start, s with
  | O, _ => s
  | S _, EmptyString => EmptyString
  | S n, String _ s' => substring_from n s'
  end.

(** ToString of a non-negative integer Number below 1e21: its decimal
    digits, ["0"] for zero. *)
Definition number_to_string (n : N) : string :=
  NilEmpty.string_of_uint (N.to_uint n).

Definition is_digit (c : ascii) : bool :=
  let n := nat_of_ascii c in (48 <=? n)%nat && (n <=? 57)%nat.

Fixpoint all_digits (s : string) : bool :=
  match s with
  | EmptyString => true
  | String c s' => is_digit c && all_digits s'
  end.

End Js.

(* ===================================================================== *)
(** * api-tests/utils/sendbird-api.ts and the SDK helper: identifiers *)
(* ===================================================================== *)

Module TestId.
Import Js.

(** What one call of [generateTestId] observes of its environment:
    [Date.now()] and the string [Math.random().toString(36)]. *)
Record Clock : Type := mkClock {
  now : N;               (* Date.now(), milliseconds *)
  random36 : string      (* Math.random().toString(36), e.g. "0.4fzyo82mvyr" *)
}.

(** [Math.random().toString(36).substring(7)]. *)
Definition randomToken (c : Clock) : string :=
  substring_from 7 (random36 c).

(** SDK helper:
    [export function generateTestId(prefix: string): string {
       return `${prefix}_${Date.now()}_${Math.random().toString(36).substring(7)}`; }] *)
Definition generateTestId (prefix : string) (c : Clock) : string :=
  prefix ++ "_" ++ number_to_string (now c) ++ "_" ++ randomToken c.

(** REST utilities: the same body with a default parameter,
    [generateTestId(prefix: string = 'test')]. *)
Definition generateTestId_api (prefix : OptStr) (c : Clock) : string :=
  let prefix := match prefix with None => "test" | Some p => p end in
  prefix ++ "_" ++ number_to_string (now c) ++ "_" ++ randomToken c.

End TestId.

(* ===================================================================== *)
(** * Errors, the remote system, and the monad of [async] code *)
(* ===================================================================== *)

Module Remote.
Import Js.

(** ** HTTP *)

Inductive Method : Type := GET | POST | PUT | DELETE.

(** The request configuration axios hands to its adapter: the verb and
    arguments of the call merged over the defaults of the instance. *)
Record Request : Type := mkRequest {
  method : Method;
  baseURL : string;
  url : string;
  headers : list (string * string);
  data : option JsObject;
  params : option JsObject
}.

(** An [AxiosResponse] (or the [response] of an [AxiosError]): the HTTP
    status and the parsed JSON body, [None] when there is no body object. *)
Record HttpResponse : Type := mkResponse {
  status : Z;
  body : option JsObject
}.

(** ** Vendor SDK calls made by the suites and the session helper *)

Inductive SdkCall : Type :=
| SbInit (appId : string)                              (* SendbirdChat.init({ appId, modules }) *)
| SbConnect (userId : string) (accessToken : OptStr)   (* sb.connect(userId) / sb.connect(userId, token) *)
| SbDisconnect                                         (* sb.disconnect() *)
| ChannelExit (channel : string)                       (* openChannel.exit() *)
| ChannelDelete (channel : string)                     (* openChannel.delete() *)
| ChannelLeave (channel : string).                     (* groupChannel.leave() *)

Inductive Call : Type :=
| Http (r : Request)
| Sdk (c : SdkCall).

(** ** Errors *)

Inductive JsError : Type :=
| AxiosError (response : option HttpResponse)   (* no response on a network failure *)
| SendbirdError (code : Z)
| Error (message : string)                      (* new Error(message) *)
| TypeError                                     (* property access on undefined *)
| ExpectError.                                  (* a failed expect(...) *)

Inductive Outcome (A : Type) : Type :=
| Returned (a : A)
| Thrown (e : JsError).
Arguments Returned {A} a.
Arguments Thrown {A} e.

(** ** The environment *)

Record ProcessEnv : Type := mkEnv {
  SENDBIRD_APP_ID : OptStr;
  SENDBIRD_API_TOKEN : OptStr
}.

(** The remote system is any deterministic function of the calls made so
    far (oldest first) and the call being made: it resolves with a value
    or rejects with an error. *)
Record Vendor : Type := mkVendor {
  http_reply : list Call -> Request -> Outcome HttpResponse;
  sdk_reply : list Call -> SdkCall -> Outcome JsObject
}.

Record Runtime : Type := mkRuntime {
  process_env : ProcessEnv;
  vendor : Vendor;
  date_now : list Call -> N      (* Date.now() after the given calls *)
}.

(** The variables of a suite (or module) and the log of calls issued. *)
Record World (S : Type) : Type := mkWorld {
  vars : S;
  calls : list Call
}.
Arguments mkWorld {S} vars calls.
Arguments vars {S} w.
Arguments calls {S} w.

(** ** Sequential [async] code

    Every promise is awaited where it is created, so an [async] function
    is a state transformer that returns or throws; assignments made
    before a [throw] stay made. *)
Definition M (S A : Type) : Type := Runtime -> World S -> Outcome A * World S.

Definition ret {S A} (a : A) : M S A := fun _ w => (Returned a, w).

Definition throw {S A} (e : JsError) : M S A := fun _ w => (Thrown e, w).

Definition bind {S A B} (m : M S A) (k : A -> M S B) : M S B :=
  fun rt w =>
    match m rt w with
    | (Returned a, w') => k a rt w'
    | (Thrown e, w') => (Thrown e, w')
    end.

(** [try { body } catch (error) { handler }] *)
Definition try_catch {S A} (body : M S A) (handler : JsError -> M S A) : M S A :=
  fun rt w =>
    match body rt w with
    | (Returned a, w') => (Returned a, w')
    | (Thrown e, w') => handler e rt w'
    end.

Definition gets {S A} (f : S -> A) : M S A := fun _ w => (Returned (f (vars w)), w).

Definition modify {S} (f : S -> S) : M S unit :=
  fun _ w => (Returned tt, mkWorld (f (vars w)) (calls w)).

(** [await] of a REST call: the call is logged, then the vendor's answer
    is returned or thrown. *)
Definition http {S} (req : Request) : M S HttpResponse :=
  fun rt w => (http_reply (vendor rt) (calls w) req, mkWorld (vars w) (calls w ++ [Http req])).

Definition sdk {S} (c : SdkCall) : M S JsObject :=
  fun rt w => (sdk_reply (vendor rt) (calls w) c, mkWorld (vars w) (calls w ++ [Sdk c])).

Definition Date_now {S} : M S N := fun rt w => (Returned (date_now rt (calls w)), w).

Module Notations.
  Declare Scope js_scope.
  Delimit Scope js_scope with js.
  Notation "x <- m ;; k" := (bind m (fun x => k))
    (at level 61, m at next level, right associativity) : js_scope.
  Notation "m ;; k" := (bind m (fun _ => k))
    (at level 61, right associativity) : js_scope.
End Notations.
Import Notations.
Local Open Scope js_scope.

(** [for (const x of xs) { body }] over an array the body does not change. *)
Fixpoint for_of {S X} (xs : list X) (body : X -> M S unit) : M S unit :=
  match xs with
  | [] => ret tt
  | x :: xs' => body x ;; for_of xs' body
  end.

(** The empty handler [catch (error) { }]. *)
Definition ignore {S} (_ : JsError) : M S unit := ret tt.

(** Strict equality on the values compared by [expect(a).toBe(b)]. *)
Definition strict_eqb (a b : JsVal) : bool :=
  match a, b with
  | JUndefined, JUndefined => true
  | JBool x, JBool y => Bool.eqb x y
  | JNum x, JNum y => Z.eqb x y
  | JStr x, JStr y => String.eqb x y
  | _, _ => false
  end.

(** [expect(actual).toBe(expected)] *)
Definition expect_toBe {S} (actual expected : JsVal) : M S unit :=
  if strict_eqb actual expected then ret tt else throw ExpectError.

(** [expect(codes).toContain(item)] on an array of numbers. *)
Definition expect_toContain {S} (codes : list Z) (item : JsVal) : M S unit :=
  if existsb (fun c => strict_eqb (JNum c) item) codes then ret tt else throw ExpectError.

(** What the test runner does with a test and its [afterEach] /
    [afterAll] hook: the hook runs after the body whatever the body's
    outcome; the run fails if either throws. *)
Definition run_with_teardown {S} (body teardown : M S unit) : M S unit :=
  fun rt w =>
    match body rt w with
    | (Returned _, w') => teardown rt w'
    | (Thrown e, w') =>
        match teardown rt w' with
        | (_, w'') => (Thrown e, w'')
        end
    end.

End Remote.

(* ===================================================================== *)
(** * URI encoding and axios URL resolution *)
(* ===================================================================== *)

Module Uri.
Import Js.

Definition in_range (lo hi : nat) (c : ascii) : bool :=
  let n := nat_of_ascii c in (lo <=? n)%nat && (n <=? hi)%nat.

Definition is_alpha (c : ascii) : bool :=
  in_range 65 90 c || in_range 97 122 c.

(** The characters [encodeURIComponent] leaves alone:
    [A-Z a-z 0-9 - _ . ! ~ * ' ( )]. *)
Definition uri_unreserved (c : ascii) : bool :=
  is_alpha c || is_digit c ||
  existsb (Ascii.eqb c) ["-"; "_"; "."; "!"; "~"; "*"; "'"; "("; ")"]%char.

Definition hex_digit (n : nat) : ascii :=
  if (n <? 10)%nat then ascii_of_nat (48 + n) else ascii_of_nat (55 + n).

(** [encodeURIComponent] on a string given by its UTF-8 bytes: every
    other byte becomes [%XX] in upper-case hexadecimal. *)
Fixpoint encodeURIComponent (s : string) : string :=
  match s with
  | EmptyString => EmptyString
  | String c s' =>
      if uri_unreserved c then String c (encodeURIComponent s')
      else
        let n := nat_of_ascii c in
        String "%" (String (hex_digit (n / 16)) (String (hex_digit (n mod 16))
          (encodeURIComponent s')))
  end.

(** Template-literal rendering of an integer Number. *)
Definition z_to_string (z : Z) : string :=
  NilEmpty.string_of_int (Z.to_int z).

Fixpoint starts_with (p s : string) : bool :=
  match p, s with
  | EmptyString, _ => true
  | String a p', String b s' => Ascii.eqb a b && starts_with p' s'
  | String _ _, EmptyString => false
  end.

(** The tail of a URI scheme, [[a-z\d+\-.]*:] followed by [//]. *)
Fixpoint scheme_tail (s : string) : bool :=
  match s with
  | EmptyString => false
  | String c s' =>
      if Ascii.eqb c ":" then starts_with "//" s'
      else if is_alpha c || is_digit c || existsb (Ascii.eqb c) ["+"; "-"; "."]%char
           then scheme_tail s'
           else false
  end.

(** axios [isAbsoluteURL]: the URL matches [/^([a-z][a-z\d+\-.]*:)?\/\//i]. *)
Definition isAbsoluteURL (u : string) : bool :=
  starts_with "//" u ||
  match u with
  | String c s' => is_alpha c && scheme_tail s'
  | EmptyString => false
  end.

(** [rel.replace(/^\/+/, '')] *)
Fixpoint drop_leading_slashes (s : string) : string :=
  match s with
  | String c s' => if Ascii.eqb c "/" then drop_leading_slashes s' else s
  | EmptyString => s
  end.

(** [base.replace(/\/?\/$/, '')]: at most two slashes at the end go. *)
Fixpoint drop_trailing_slash (s : string) : string :=
  match s with
  | EmptyString => EmptyString
  | String c s' =>
      if Ascii.eqb c "/" && (String.eqb s' "" || String.eqb s' "/")
      then EmptyString
      else String c (drop_trailing_slash s')
  end.

(** axios [combineURLs(baseURL, relativeURL)]. *)
Definition combineURLs (base rel : string) : string :=
  match rel with
  | EmptyString => base
  | _ => drop_trailing_slash base ++ "/" ++ drop_leading_slashes rel
  end.

(** axios [buildFullPath(baseURL, requestedURL)]: the address the request
    goes to. *)
Definition buildFullPath (base requested : string) : string :=
  match base with
  | EmptyString => requested
  | _ => if isAbsoluteURL requested then requested else combineURLs base requested
  end.

End Uri.

(* ===================================================================== *)
(** * api-tests/utils/sendbird-api.ts *)
(* ===================================================================== *)

Module SendbirdApi.
Import Js Remote Remote.Notations Uri.
Local Open Scope js_scope.

(** [const APP_ID = process.env.SENDBIRD_APP_ID || '';] *)
Definition APP_ID (env : ProcessEnv) : string := or_else (SENDBIRD_APP_ID env) "".

(** [const API_TOKEN = process.env.SENDBIRD_API_TOKEN || '';] *)
Definition API_TOKEN (env : ProcessEnv) : string := or_else (SENDBIRD_API_TOKEN env) "".

(** [const BASE_URL = `https://api-${APP_ID}.sendbird.com/v3`;] *)
Definition BASE_URL (env : ProcessEnv) : string :=
  "https://api-" ++ APP_ID env ++ ".sendbird.com/v3".

(** The defaults of an axios instance. *)
Record AxiosInstance : Type := mkAxios {
  defaults_baseURL : string;
  defaults_headers : list (string * string)
}.

(** [export const apiClient = axios.create({ baseURL: BASE_URL, headers: {...} })] *)
Definition apiClient (env : ProcessEnv) : AxiosInstance :=
  {| defaults_baseURL := BASE_URL env;
     defaults_headers := [("Content-Type", "application/json");
                          ("Api-Token", API_TOKEN env)] |}.

(** [instance.request(config)]: the call's own configuration over the
    defaults of the instance; no call of the wrapper overrides [baseURL]
    or [headers]. *)
Definition axios_request {S} (inst : AxiosInstance) (m : Method) (path : string)
    (d p : option JsObject) : M S HttpResponse :=
  http {| method := m;
          baseURL := defaults_baseURL inst;
          url := path;
          headers := defaults_headers inst;
          data := d;
          params := p |}.

(** [apiClient.get(url, { params })], [apiClient.delete(url)],
    [apiClient.post(url, data)], [apiClient.put(url, data)]. *)
Definition client_get {S} (path : string) (p : option JsObject) : M S HttpResponse :=
  fun rt => axios_request (apiClient (process_env rt)) GET path None p rt.

Definition client_delete {S} (path : string) : M S HttpResponse :=
  fun rt => axios_request (apiClient (process_env rt)) DELETE path None None rt.

Definition client_post {S} (path : string) (d : JsObject) : M S HttpResponse :=
  fun rt => axios_request (apiClient (process_env rt)) POST path (Some d) None rt.

Definition client_put {S} (path : string) (d : JsObject) : M S HttpResponse :=
  fun rt => axios_request (apiClient (process_env rt)) PUT path (Some d) None rt.

(** A default parameter [x = d]. *)
Definition default {A} (o : option A) (d : A) : A :=
  match o with Some a => a | None => d end.

Module UserAPI.

Definition create {S} (userId nickname : string) (profileUrl : OptStr) : M S HttpResponse :=
  client_post "/users"
    [("user_id", JStr userId);
     ("nickname", JStr nickname);
     ("profile_url", JStr (or_else profileUrl ""))].

Definition get {S} (userId : string) : M S HttpResponse :=
  client_get ("/users/" ++ encodeURIComponent userId) None.

Definition update {S} (userId : string) (nickname profileUrl : OptStr) : M S HttpResponse :=
  client_put ("/users/" ++ encodeURIComponent userId)
    [("nickname", val_of_opt nickname);
     ("profile_url", val_of_opt profileUrl)].

Definition delete {S} (userId : string) : M S HttpResponse :=
  client_delete ("/users/" ++ encodeURIComponent userId).

Definition list {S} (limit : option Z) : M S HttpResponse :=
  client_get "/users" (Some [("limit", JNum (default limit 10%Z))]).

End UserAPI.

Module ChannelAPI.

Definition create {S} (name : string) (userIds : Datatypes.list string)
    (isDistinct : option bool) : M S HttpResponse :=
  client_post "/group_channels"
    [("name", JStr name);
     ("user_ids", JStrs userIds);
     ("is_distinct", JBool (default isDistinct false))].

Definition get {S} (channelUrl : string) : M S HttpResponse :=
  client_get ("/group_channels/" ++ encodeURIComponent channelUrl) None.

Definition update {S} (channelUrl : string) (name : OptStr) : M S HttpResponse :=
  client_put ("/group_channels/" ++ encodeURIComponent channelUrl)
    [("name", val_of_opt name)].

Definition delete {S} (channelUrl : string) : M S HttpResponse :=
  client_delete ("/group_channels/" ++ encodeURIComponent channelUrl).

Definition list {S} (limit : option Z) : M S HttpResponse :=
  client_get "/group_channels" (Some [("limit", JNum (default limit 10%Z))]).

Definition invite {S} (channelUrl : string) (userIds : Datatypes.list string) : M S HttpResponse :=
  client_post ("/group_channels/" ++ encodeURIComponent channelUrl ++ "/invite")
    [("user_ids", JStrs userIds)].

Definition leave {S} (channelUrl : string) (userIds : Datatypes.list string) : M S HttpResponse :=
  client_put ("/group_channels/" ++ encodeURIComponent channelUrl ++ "/leave")
    [("user_ids", JStrs userIds)].

End ChannelAPI.

Module MessageAPI.

Definition send {S} (channelUrl userId message : string) (customType data : OptStr)
    : M S HttpResponse :=
  client_post ("/group_channels/" ++ encodeURIComponent channelUrl ++ "/messages")
    [("message_type", JStr "MESG");
     ("user_id", JStr userId);
     ("message", JStr message);
     ("custom_type", val_of_opt customType);
     ("data", val_of_opt data)].

Definition get {S} (channelUrl : string) (messageId : Z) : M S HttpResponse :=
  client_get ("/group_channels/" ++ encodeURIComponent channelUrl
                ++ "/messages/" ++ z_to_string messageId) None.

Definition update {S} (channelUrl : string) (messageId : Z) (message : string)
    : M S HttpResponse :=
  client_put ("/group_channels/" ++ encodeURIComponent channelUrl
                ++ "/messages/" ++ z_to_string messageId)
    [("message_type", JStr "MESG");
     ("message", JStr message)].

Definition delete {S} (channelUrl : string) (messageId : Z) : M S HttpResponse :=
  client_delete ("/group_channels/" ++ encodeURIComponent channelUrl
                   ++ "/messages/" ++ z_to_string messageId).

Definition list {S} (channelUrl : string) (limit : option Z) : M S HttpResponse :=
  ts <- Date_now ;;
  client_get ("/group_channels/" ++ encodeURIComponent channelUrl ++ "/messages")
    (Some [("message_ts", JNum (Z.of_N ts));
           ("prev_limit", JNum (default limit 10%Z));
           ("next_limit", JNum 0%Z)]).

End MessageAPI.

(** Every operation the wrapper exports, with its arguments. *)
Inductive Operation : Type :=
| User_create (userId nickname : string) (profileUrl : OptStr)
| User_get (userId : string)
| User_update (userId : string) (nickname profileUrl : OptStr)
| User_delete (userId : string)
| User_list (limit : option Z)
| Channel_create (name : string) (userIds : Datatypes.list string) (isDistinct : option bool)
| Channel_get (channelUrl : string)
| Channel_update (channelUrl : string) (name : OptStr)
| Channel_delete (channelUrl : string)
| Channel_list (limit : option Z)
| Channel_invite (channelUrl : string) (userIds : Datatypes.list string)
| Channel_leave (channelUrl : string) (userIds : Datatypes.list string)
| Message_send (channelUrl userId message : string) (customType data : OptStr)
| Message_get (channelUrl : string) (messageId : Z)
| Message_update (channelUrl : string) (messageId : Z) (message : string)
| Message_delete (channelUrl : string) (messageId : Z)
| Message_list (channelUrl : string) (limit : option Z).

Definition invoke {S} (op : Operation) : M S HttpResponse :=
  match op with
  | User_create u n p => UserAPI.create u n p
  | User_get u => UserAPI.get u
  | User_update u n p => UserAPI.update u n p
  | User_delete u => UserAPI.delete u
  | User_list l => UserAPI.list l
  | Channel_create n us d => ChannelAPI.create n us d
  | Channel_get c => ChannelAPI.get c
  | Channel_update c n => ChannelAPI.update c n
  | Channel_delete c => ChannelAPI.delete c
  | Channel_list l => ChannelAPI.list l
  | Channel_invite c us => ChannelAPI.invite c us
  | Channel_leave c us => ChannelAPI.leave c us
  | Message_send c u m t d => MessageAPI.send c u m t d
  | Message_get c i => MessageAPI.get c i
  | Message_update c i m => MessageAPI.update c i m
  | Message_delete c i => MessageAPI.delete c i
  | Message_list c l => MessageAPI.list c l
  end.

(** Header lookup in a request configuration. *)
Fixpoint header (name : string) (hs : Datatypes.list (string * string)) : option string :=
  match hs with
  | [] => None
  | (k, v) :: hs' => if String.eqb name k then Some v else header name hs'
  end.

(** A path that starts with exactly one slash. *)
Definition rooted_path (u : string) : bool :=
  match u with
  | String a (String c _) => Ascii.eqb a "/" && negb (Ascii.eqb c "/")
  | _ => false
  end.

(** A vendor that answers a request with the [profile_url] it was sent:
    the body of every successful response carries the field of the
    request body. *)
Definition stores_profile_url (v : Vendor) : Prop :=
  forall h req d r,
    data req = Some d ->
    http_reply v h req = Returned r ->
    exists b, body r = Some b /\
              get_prop "profile_url" b = get_prop "profile_url" d.

End SendbirdApi.

(* ===================================================================== *)
(** * The SDK session helper *)
(* ===================================================================== *)

Module SendbirdHelper.
Import Js Remote Remote.Notations.
Local Open Scope js_scope.

(** [let sbInstance: SendbirdInstance | null = null;] *)
Record ModuleState : Type := mkState {
  sbInstance : option JsObject
}.

Definition initial : ModuleState := {| sbInstance := None |}.

(** [const APP_ID = process.env.SENDBIRD_APP_ID || '';] *)
Definition APP_ID (env : ProcessEnv) : string := or_else (SENDBIRD_APP_ID env) "".

Definition initSendbird (appId : OptStr) : M ModuleState JsObject :=
  fun rt =>
    (sb <- sdk (SbInit (or_else appId (APP_ID (process_env rt)))) ;;
     modify (fun _ => {| sbInstance := Some sb |}) ;;
     ret sb) rt.

Definition getSendbirdInstance : M ModuleState (option JsObject) :=
  gets sbInstance.

Definition connectUser (userId : string) (accessToken : OptStr) : M ModuleState JsObject :=
  inst <- gets sbInstance ;;
  match inst with
  | None => throw (Error "Sendbird SDK not initialized. Call initSendbird() first.")
  | Some _ =>
      if truthy accessToken
      then sdk (SbConnect userId accessToken)
      else sdk (SbConnect userId None)
  end.

Definition disconnectUser : M ModuleState unit :=
  inst <- gets sbInstance ;;
  match inst with
  | None => throw (Error "Sendbird SDK not initialized.")
  | Some _ => sdk SbDisconnect ;; ret tt
  end.

(** The vendor calls among the calls issued. *)
Fixpoint sdk_calls (cs : list Call) : list SdkCall :=
  match cs with
  | [] => []
  | Sdk c :: cs' => c :: sdk_calls cs'
  | Http _ :: cs' => sdk_calls cs'
  end.

(** [s.includes(sub)] *)
Fixpoint includes (s sub : string) : bool :=
  Uri.starts_with sub s ||
  match s with
  | EmptyString => false
  | String _ s' => includes s' sub
  end.

End SendbirdHelper.

(* ===================================================================== *)
(** * Teardown hooks and test bodies of the suites *)
(* ===================================================================== *)

(** [test.describe('User API - Create User Tests', ...)] *)
Module UserCreateSuite.
Import Js Remote Remote.Notations SendbirdApi TestId.
Local Open Scope js_scope.

(** [const createdUserIds: string[] = [];] *)
Record Vars : Type := mkVars {
  createdUserIds : list string
}.

Definition push (userId : string) (v : Vars) : Vars :=
  {| createdUserIds := createdUserIds v ++ [userId] |}.

Definition afterEach : M Vars unit :=
  ids <- gets createdUserIds ;;
  for_of ids (fun userId =>
    try_catch (UserAPI.delete userId ;; ret tt) ignore) ;;
  modify (fun _ => {| createdUserIds := [] |}).

(** [response.data.k]: a [TypeError] when there is no body. *)
Definition data_prop {S} (r : HttpResponse) (k : string) : M S JsVal :=
  match body r with
  | None => throw TypeError
  | Some o => ret (get_prop k o)
  end.

(** TC-USER-001: Create user with minimum required fields. *)
Definition tc_user_001 (c : Clock) : M Vars unit :=
  let userId := generateTestId_api (Some "user") c in
  let nickname := "TestUser" in
  response <- UserAPI.create userId nickname None ;;
  modify (push userId) ;;
  expect_toBe (JNum (status response)) (JNum 200) ;;
  v <- data_prop response "user_id" ;; expect_toBe v (JStr userId) ;;
  v <- data_prop response "nickname" ;; expect_toBe v (JStr nickname) ;;
  v <- data_prop response "is_active" ;; expect_toBe v (JBool true) ;;
  v <- data_prop response "profile_url" ;; expect_toBe v (JStr "").

End UserCreateSuite.

(** [test.describe('Channel API - Create Channel Tests', ...)] *)
Module ChannelCreateSuite.
Import Js Remote Remote.Notations SendbirdApi.
Local Open Scope js_scope.

Record Vars : Type := mkVars {
  testUserId : string;
  testUserId2 : string;
  createdChannelUrls : list string
}.

(** The loop over [createdChannelUrls]. *)
Definition delete_channels : M Vars unit :=
  urls <- gets createdChannelUrls ;;
  for_of urls (fun url =>
    try_catch (ChannelAPI.delete url ;; ret tt) ignore).

(** The block that deletes the two users of the suite: both calls share
    one [try]. *)
Definition delete_users : M Vars unit :=
  try_catch
    (u1 <- gets testUserId ;;
     UserAPI.delete u1 ;;
     u2 <- gets testUserId2 ;;
     UserAPI.delete u2 ;;
     ret tt)
    ignore.

Definition afterAll : M Vars unit :=
  delete_channels ;;
  delete_users.

End ChannelCreateSuite.

(** [describe('SDK Message Tests', ...)] *)
Module SdkMessageSuite.
Import Js Remote Remote.Notations.
Local Open Scope js_scope.

(** [let sb: any; let testOpenChannel: any; let testGroupChannel: any;]
    Each is [undefined] until [beforeAll] assigns it; a channel object is
    identified by its URL. *)
Record Vars : Type := mkVars {
  sb : option JsObject;
  testOpenChannel : option string;
  testGroupChannel : option string
}.

(** [await o.method()]: a [TypeError] when [o] is [undefined]. *)
Definition call_on {S X} (o : option X) (c : X -> SdkCall) : M S unit :=
  match o with
  | None => throw TypeError
  | Some x => sdk (c x) ;; ret tt
  end.

Definition afterAll : M Vars unit :=
  try_catch
    (ch <- gets testOpenChannel ;;
     call_on ch ChannelExit ;;
     ch <- gets testOpenChannel ;;
     call_on ch ChannelDelete)
    ignore ;;
  try_catch
    (ch <- gets testGroupChannel ;;
     call_on ch ChannelLeave)
    ignore ;;
  s <- gets sb ;;
  call_on s (fun _ => SbDisconnect).

End SdkMessageSuite.

(* ===================================================================== *)
(** * Observing a teardown *)
(* ===================================================================== *)

Module Observe.
Import Js Remote SendbirdApi Uri.

(** The request [apiClient.delete(path)] issues in a given environment. *)
Definition delete_request (env : ProcessEnv) (path : string) : Request :=
  {| method := DELETE;
     baseURL := defaults_baseURL (apiClient env);
     url := path;
     headers := defaults_headers (apiClient env);
     data := None;
     params := None |}.

(** The cleanup request for a user handle and for a channel handle. *)
Definition user_cleanup_request (env : ProcessEnv) (userId : string) : Request :=
  delete_request env ("/users/" ++ encodeURIComponent userId).

Definition channel_cleanup_request (env : ProcessEnv) (channelUrl : string) : Request :=
  delete_request env ("/group_channels/" ++ encodeURIComponent channelUrl).

Definition user_cleanup (env : ProcessEnv) (userId : string) : Call :=
  Http (user_cleanup_request env userId).

Definition channel_cleanup (env : ProcessEnv) (channelUrl : string) : Call :=
  Http (channel_cleanup_request env channelUrl).

(** A DELETE request on a resource under the given path prefix. *)
Definition deletes_under (prefix : string) (c : Call) : bool :=
  match c with
  | Http r =>
      match method r with
      | DELETE => starts_with prefix (url r)
      | _ => false
      end
  | Sdk _ => false
  end.

(** The calls a computation issues when started in a world. *)
Definition issued {S A} (m : M S A) (rt : Runtime) (w : World S) : list Call :=
  skipn (List.length (calls w)) (calls (snd (m rt w))).

(** A vendor that rejects the requests to one path with a 400 / 400201
    answer and accepts everything else. *)
Definition rejecting (path : string) : Vendor :=
  {| http_reply := fun _ req =>
       if String.eqb (url req) path
       then Thrown (AxiosError (Some {| status := 400;
                                        body := Some [("code", JNum 400201)] |}))
       else Returned {| status := 200; body := Some [] |};
     sdk_reply := fun _ _ => Returned [] |}.

(** A vendor that stores what it is sent and answers with it, marked
    active. *)
Definition echoing : Vendor :=
  {| http_reply := fun _ req =>
       Returned {| status := 200;
                   body := Some (match data req with Some d => d | None => [] end
                                 ++ [("is_active", JBool true)]) |};
     sdk_reply := fun _ _ => Returned [] |}.

(** A vendor whose REST side works and whose [disconnect] rejects. *)
Definition disconnect_fails : Vendor :=
  {| http_reply := fun _ _ => Returned {| status := 200; body := Some [] |};
     sdk_reply := fun _ c =>
       match c with
       | SbDisconnect => Thrown (SendbirdError 800120)
       | _ => Returned []
       end |}.

Definition sample_env : ProcessEnv :=
  {| SENDBIRD_APP_ID := Some "APP"; SENDBIRD_API_TOKEN := Some "TOKEN" |}.

Definition runtime_of (v : Vendor) : Runtime :=
  {| process_env := sample_env; vendor := v; date_now := fun _ => 1700000000000%N |}.

End Observe.

(* ===================================================================== *)
(** * Negative-path tests of the User API suites *)
(* ===================================================================== *)

Module NegativeTests.
Import Js Remote Remote.Notations SendbirdApi.
Local Open Scope js_scope.

(** [error.response]: [undefined] on anything but an axios error that
    carries one, so that [error.response.status] is a [TypeError]. *)
Definition error_response {S} (error : JsError) : M S HttpResponse :=
  match error with
  | AxiosError (Some r) => ret r
  | _ => throw TypeError
  end.

(** [error.response.data.code] *)
Definition data_code {S} (r : HttpResponse) : M S JsVal :=
  match body r with
  | None => throw TypeError
  | Some o => ret (get_prop "code" o)
  end.

Definition MAX_USER_ID_LENGTH : nat := 80.

(** ['a'.repeat(n)] *)
Fixpoint repeat_a (n : nat) : string :=
  match n with
  | O => EmptyString
  | S n' => String "a" (repeat_a n')
  end.

(** TC-USER-010: Fail to create user with user_id exceeding max length. *)
Definition tc_user_010 : M UserCreateSuite.Vars unit :=
  let userId := repeat_a (MAX_USER_ID_LENGTH + 1) in
  let nickname := "ExceedLengthUser" in
  try_catch
    (UserAPI.create userId nickname None ;;
     modify (UserCreateSuite.push userId) ;;
     expect_toBe (JBool true) (JBool false))
    (fun error =>
       r <- error_response error ;;
       expect_toBe (JNum (status r)) (JNum 400) ;;
       r <- error_response error ;;
       code <- data_code r ;;
       expect_toContain [400305; 400110]%Z code).

(** TC-USER-011: Fail to create user with empty user_id. *)
Definition tc_user_011 : M UserCreateSuite.Vars unit :=
  try_catch
    (UserAPI.create "" "EmptyIdUser" None ;;
     expect_toBe (JBool true) (JBool false))
    (fun error =>
       r <- error_response error ;;
       expect_toBe (JNum (status r)) (JNum 400) ;;
       r <- error_response error ;;
       code <- data_code r ;;
       expect_toContain [400105; 400151; 400111]%Z code).

(** TC-USER-014: Fail to get non-existent user (Error 400201/400301). *)
Definition tc_user_014 {S} : M S unit :=
  t <- Date_now ;;
  let nonExistentUserId := ("non_existent_user_" ++ number_to_string t)%string in
  try_catch
    (UserAPI.get nonExistentUserId ;;
     expect_toBe (JBool true) (JBool false))
    (fun error =>
       r <- error_response error ;;
       expect_toBe (JNum (status r)) (JNum 400) ;;
       r <- error_response error ;;
       code <- data_code r ;;
       expect_toContain [400201; 400301]%Z code).

(** TC-USER-017: Fail to update non-existent user (Error 400201/400301). *)
Definition tc_user_017 {S} : M S unit :=
  t <- Date_now ;;
  let nonExistentUserId := ("non_existent_" ++ number_to_string t)%string in
  try_catch
    (UserAPI.update nonExistentUserId (Some "NewNickname") None ;;
     expect_toBe (JBool true) (JBool false))
    (fun error =>
       r <- error_response error ;;
       expect_toBe (JNum (status r)) (JNum 400) ;;
       r <- error_response error ;;
       code <- data_code r ;;
       expect_toContain [400201; 400301]%Z code).

(** TC-USER-019: Fail to delete non-existent user (Error 400201/400301). *)
Definition tc_user_019 {S} : M S unit :=
  t <- Date_now ;;
  let nonExistentUserId := ("non_existent_delete_" ++ number_to_string t)%string in
  try_catch
    (UserAPI.delete nonExistentUserId ;;
     expect_toBe (JBool true) (JBool false))
    (fun error =>
       r <- error_response error ;;
       expect_toBe (JNum (status r)) (JNum 400) ;;
       r <- error_response error ;;
       code <- data_code r ;;
       expect_toContain [400201; 400301]%Z code).

(** The verification step at the end of TC-USER-018 (Delete existing user
    and verify), a test of the positive path: its [catch] block checks the
    code only. *)
Definition tc_user_018_verify {S} (userId : string) : M S unit :=
  try_catch
    (UserAPI.get userId ;;
     expect_toBe (JBool true) (JBool false))
    (fun error =>
       r <- error_response error ;;
       code <- data_code r ;;
       expect_toContain [400201; 400301]%Z code).

(** The negative-path tests that match the vendor's error code against an
    allow-list, with the request of the action under test and the list. *)
Inductive Case : Type := TC_USER_010 | TC_USER_011 | TC_USER_014 | TC_USER_017 | TC_USER_019.

Definition test_body (c : Case) : M UserCreateSuite.Vars unit :=
  match c with
  | TC_USER_010 => tc_user_010
  | TC_USER_011 => tc_user_011
  | TC_USER_014 => tc_user_014
  | TC_USER_017 => tc_user_017
  | TC_USER_019 => tc_user_019
  end.

Definition allow_list (c : Case) : list Z :=
  match c with
  | TC_USER_010 => [400305; 400110]
  | TC_USER_011 => [400105; 400151; 400111]
  | TC_USER_014 | TC_USER_017 | TC_USER_019 => [400201; 400301]
  end%Z.

(** The action under test, given what [Date.now()] returns when the test
    starts. *)
Definition action (c : Case) (t : N) : Operation :=
  match c with
  | TC_USER_010 => User_create (repeat_a (MAX_USER_ID_LENGTH + 1)) "ExceedLengthUser" None
  | TC_USER_011 => User_create "" "EmptyIdUser" None
  | TC_USER_014 => User_get ("non_existent_user_" ++ number_to_string t)
  | TC_USER_017 => User_update ("non_existent_" ++ number_to_string t) (Some "NewNickname") None
  | TC_USER_019 => User_delete ("non_existent_delete_" ++ number_to_string t)
  end.

(** The assertions every one of these [catch] blocks makes, for its list
    of codes. *)
Definition catch_block {S} (codes : list Z) (error : JsError) : M S unit :=
  r <- error_response error ;;
  expect_toBe (JNum (status r)) (JNum 400) ;;
  r <- error_response error ;;
  code <- data_code r ;;
  expect_toContain codes code.

(** The outcome of the action that the policy accepts: a rejection with
    an axios error whose response has HTTP status 400 and a numeric vendor
    code that is a member of the allow-list. *)
Definition accepted (codes : list Z) (o : Outcome HttpResponse) : Prop :=
  exists r b code,
    o = Thrown (AxiosError (Some r))
    /\ status r = 400%Z
    /\ body r = Some b
    /\ get_prop "code" b = JNum code
    /\ In code codes.

End NegativeTests.

(* ===================================================================== *)
(** * The promise wrapper around [sendUserMessage] *)
(* ===================================================================== *)

Module PromiseWrap.
Import Js Remote.

(** The state of a promise. *)
Inductive PromiseState : Type :=
| Pending
| Fulfilled (value : JsObject)
| Rejected (reason : JsError).

(** The resolving functions handed to the executor of [new Promise]: the
    first call of either settles the promise, every later call is a no-op. *)
Definition resolve (value : JsObject) (p : PromiseState) : PromiseState :=
  match p with
  | Pending => Fulfilled value
  | _ => p
  end.

Definition reject (reason : JsError) (p : PromiseState) : PromiseState :=
  match p with
  | Pending => Rejected reason
  | _ => p
  end.

(** The request handler [sendUserMessage] returns, with the callbacks
    registered on it so far. A callback acts on the promise. *)
Record RequestHandler : Type := mkHandler {
  succeeded_cb : option (JsObject -> PromiseState -> PromiseState);
  failed_cb : option (JsError -> PromiseState -> PromiseState)
}.

Definition fresh_handler : RequestHandler :=
  {| succeeded_cb := None; failed_cb := None |}.

(** [.onSucceeded(cb)] and [.onFailed(cb)] register and return the handler. *)
Definition onSucceeded (cb : JsObject -> PromiseState -> PromiseState)
    (h : RequestHandler) : RequestHandler :=
  {| succeeded_cb := Some cb; failed_cb := failed_cb h |}.

Definition onFailed (cb : JsError -> PromiseState -> PromiseState)
    (h : RequestHandler) : RequestHandler :=
  {| succeeded_cb := succeeded_cb h; failed_cb := Some cb |}.

(** The executor of the wrapper:
    [channel.sendUserMessage(params)
       .onSucceeded((msg) => resolve(msg))
       .onFailed((err) => reject(err));] *)
Definition executor (h : RequestHandler) : RequestHandler :=
  onFailed (fun err => reject err) (onSucceeded (fun msg => resolve msg) h).

(** What the vendor does with a request: a callback that fires. *)
Inductive Fired : Type :=
| Succeeded (msg : JsObject)
| Failed (err : JsError).

Definition fire (h : RequestHandler) (ev : Fired) (p : PromiseState) : PromiseState :=
  match ev with
  | Succeeded msg =>
      match succeeded_cb h with Some cb => cb msg p | None => p end
  | Failed err =>
      match failed_cb h with Some cb => cb err p | None => p end
  end.

(** [sendUserMessage] either throws before it returns a handler, or
    returns one and later fires callbacks, in some order, any number of
    times. *)
Inductive Behaviour : Type :=
| ThrowsSync (e : JsError)
| Fires (evs : list Fired).

(** The promise after the callbacks [evs] have fired on a handler. *)
Fixpoint run (h : RequestHandler) (evs : list Fired) (p : PromiseState) : PromiseState :=
  match evs with
  | [] => p
  | ev :: evs' => run h evs' (fire h ev p)
  end.

(** [new Promise(executor)]: what the executor throws rejects the
    promise; otherwise the registered callbacks act on it as they fire. *)
Definition wrapped (b : Behaviour) : PromiseState :=
  match b with
  | ThrowsSync e => reject e Pending
  | Fires evs => run (executor fresh_handler) evs Pending
  end.

Definition is_pending (p : PromiseState) : bool :=
  match p with Pending => true | _ => false end.

(** How many of the callbacks settled the promise. *)
Fixpoint settlements (h : RequestHandler) (evs : list Fired) (p : PromiseState) : nat :=
  match evs with
  | [] => 0
  | ev :: evs' =>
      (if is_pending p && negb (is_pending (fire h ev p)) then 1 else 0)
      + settlements h evs' (fire h ev p)
  end.

(** What the first callback asks for. *)
Definition forwarded (ev : Fired) : PromiseState :=
  match ev with
  | Succeeded msg => Fulfilled msg
  | Failed err => Rejected err
  end.

End PromiseWrap.

(* ===================================================================== *)
(** * More of the run time: coercions and matchers *)
(* ===================================================================== *)

Module Coerce.
Import Js Remote Uri.




(** [s.includes(c)] for one character. *)
Fixpoint occurs (c : ascii) (s : string) : bool :=
  match s with
  | EmptyString => false
  | String c' s' => Ascii.eqb c c' || occurs c s'
  end.

Fixpoint string_forallb (p : ascii -> bool) (s : string) : bool :=
  match s with
  | EmptyString => true
  | String c s' => p c && string_forallb p s'
  end.

(** A character of an encoded URI component. *)
Definition component_char (c : ascii) : bool :=
  uri_unreserved c || Ascii.eqb c "%".

(** The request [apiClient.post(path, data)] issues in an environment. *)
Definition post_request (env : ProcessEnv) (path : string) (d : JsObject) : Request :=
  {| method := POST;
     baseURL := SendbirdApi.defaults_baseURL (SendbirdApi.apiClient env);
     url := path;
     headers := SendbirdApi.defaults_headers (SendbirdApi.apiClient env);
     data := Some d;
     params := None |}.

(** The request of [UserAPI.create(userId, nickname)]. *)
Definition user_create_request (env : ProcessEnv) (userId nickname : string) : Request :=
  post_request env "/users"
    [("user_id", JStr userId); ("nickname", JStr nickname); ("profile_url", JStr "")].

(** The request of [ChannelAPI.create(name, userIds)]. *)
Definition channel_create_request (env : ProcessEnv) (name : string)
    (userIds : list string) : Request :=
  post_request env "/group_channels"
    [("name", JStr name); ("user_ids", JStrs userIds); ("is_distinct", JBool false)].

(** The request of [ChannelAPI.get(channelUrl)]. *)
Definition channel_get_request (env : ProcessEnv) (channelUrl : string) : Request :=
  {| method := GET;
     baseURL := SendbirdApi.defaults_baseURL (SendbirdApi.apiClient env);
     url := "/group_channels/" ++ encodeURIComponent channelUrl;
     headers := SendbirdApi.defaults_headers (SendbirdApi.apiClient env);
     data := None;
     params := None |}.

End Coerce.

(* ===================================================================== *)
(** * More suites: variables, hooks and test bodies *)
(* ===================================================================== *)

(** The tests of [test.describe('Channel API - Create Channel Tests', ...)] *)
Module ChannelCreateTests.
Import Js Remote Remote.Notations SendbirdApi Coerce.
Local Open Scope js_scope.

(** [createdChannelUrls.push(url)] *)
Definition push (channelUrl : string) (v : ChannelCreateSuite.Vars) : ChannelCreateSuite.Vars :=
  {| ChannelCreateSuite.testUserId := ChannelCreateSuite.testUserId v;
     ChannelCreateSuite.testUserId2 := ChannelCreateSuite.testUserId2 v;
     ChannelCreateSuite.createdChannelUrls :=
       ChannelCreateSuite.createdChannelUrls v ++ [channelUrl] |}.



(** TC-CHANNEL-009: Fail to create channel with empty user list. *)
Definition tc_channel_009 : M ChannelCreateSuite.Vars unit :=
  try_catch
    (ChannelAPI.create "EmptyUserChannel" [] None ;; ret tt)
    (fun error =>
       r <- NegativeTests.error_response error ;;
       expect_toBe (JNum (status r)) (JNum 400)).

(** TC-CHANNEL-012: Fail to get non-existent channel (Read Channel Tests). *)
Definition tc_channel_012 {S} : M S unit :=
  t <- Date_now ;;
  let nonExistentUrl := ("non_existent_channel_" ++ number_to_string t)%string in
  try_catch
    (ChannelAPI.get nonExistentUrl ;;
     expect_toBe (JBool true) (JBool false))
    (fun error =>
       r <- NegativeTests.error_response error ;;
       expect_toBe (JNum (status r)) (JNum 400)).

End ChannelCreateTests.

(** [test.describe('Channel API - List Channels Tests', ...)] *)
Module ChannelListSuite.
Import Js Remote Remote.Notations SendbirdApi.
Local Open Scope js_scope.

Record Vars : Type := mkVars {
  testUserId : string;
  createdChannelUrls : list string
}.

Definition afterAll : M Vars unit :=
  urls <- gets createdChannelUrls ;;
  for_of urls (fun url =>
    try_catch (ChannelAPI.delete url ;; ret tt) ignore) ;;
  try_catch
    (u <- gets testUserId ;;
     UserAPI.delete u ;;
     ret tt)
    ignore.

End ChannelListSuite.

(** [test.describe('Channel API - Member Management Tests', ...)] *)
Module ChannelMemberSuite.
Import Js Remote Remote.Notations SendbirdApi.
Local Open Scope js_scope.

Record Vars : Type := mkVars {
  ownerUserId : string;
  inviteUserId : string;
  testChannelUrl : string
}.

Definition afterAll : M Vars unit :=
  try_catch
    (c <- gets testChannelUrl ;;
     ChannelAPI.delete c ;;
     o <- gets ownerUserId ;;
     UserAPI.delete o ;;
     i <- gets inviteUserId ;;
     UserAPI.delete i ;;
     ret tt)
    ignore.

End ChannelMemberSuite.

(** More tests of [test.describe('User API - Create User Tests', ...)] *)
Module UserCreateTests.
Import Js Remote Remote.Notations SendbirdApi TestId.
Local Open Scope js_scope.

(** TC-USER-009: Fail to create user with duplicate user_id (Error 400202). *)
Definition tc_user_009 (c : Clock) : M UserCreateSuite.Vars unit :=
  let userId := generateTestId_api (Some "user") c in
  UserAPI.create userId "FirstUser" None ;;
  modify (UserCreateSuite.push userId) ;;
  try_catch
    (UserAPI.create userId "DuplicateUser" None ;;
     expect_toBe (JBool true) (JBool false))
    (fun error =>
       r <- NegativeTests.error_response error ;;
       expect_toBe (JNum (status r)) (JNum 400) ;;
       r <- NegativeTests.error_response error ;;
       code <- NegativeTests.data_code r ;;
       expect_toBe code (JNum 400202)).

End UserCreateTests.

(** [test.describe('User API - List Users Tests', ...)] *)
Module UserListSuite.
Import Js Remote Remote.Notations SendbirdApi TestId.
Local Open Scope js_scope.

(** [const testUserIds: string[] = [];] *)
Record Vars : Type := mkVars {
  testUserIds : list string
}.

Definition push (userId : string) (v : Vars) : Vars :=
  {| testUserIds := testUserIds v ++ [userId] |}.




Definition afterAll : M Vars unit :=
  ids <- gets testUserIds ;;
  for_of ids (fun userId =>
    try_catch (UserAPI.delete userId ;; ret tt) ignore).

End UserListSuite.

(** [describe('SDK Connection Tests', ...)] *)
Module SdkConnectionSuite.
Import Js Remote Remote.Notations.
Local Open Scope js_scope.

(** [let sb: any;] The instance, with the properties the hook reads, or
    [undefined]. *)
Record Vars : Type := mkVars {
  sb : option JsObject
}.

(** [sb && sb.connectionState === 'OPEN'] *)
Definition is_open (s : option JsObject) : bool :=
  match s with
  | None => false
  | Some o => strict_eqb (get_prop "connectionState" o) (JStr "OPEN")
  end.

Definition afterEach : M Vars unit :=
  try_catch
    (s <- gets sb ;;
     if is_open s then sdk SbDisconnect ;; ret tt else ret tt)
    ignore.

End SdkConnectionSuite.

(** [test.describe('User API - Data-Driven Tests', ...)] *)
Module UserDataDriven.
Import Js Remote Remote.Notations SendbirdApi.
Local Open Scope js_scope.

(** The body of TC-USER-024 for one entry [{ id, nick }] of
    [validUserData]. *)
Definition tc_user_024 {S} (id nick : string) : M S unit :=
  response <- UserAPI.create id nick None ;;
  expect_toBe (JNum (status response)) (JNum 200) ;;
  v <- UserCreateSuite.data_prop response "user_id" ;;
  expect_toBe v (JStr id) ;;
  UserAPI.delete id ;;
  ret tt.

(** [response.status === 200] and [response.data.user_id === id]. *)
Definition assertions_hold (id : string) (r : HttpResponse) : bool :=
  Z.eqb (status r) 200
  && match body r with
     | Some b => strict_eqb (get_prop "user_id" b) (JStr id)
     | None => false
     end.

End UserDataDriven.

(* ===================================================================== *)
(** * The definitions on concrete inputs *)
(* ===================================================================== *)

Module Examples.
Import Js TestId Remote Uri SendbirdApi Observe.

Example generateTestId_sample :
  generateTestId "user" {| now := 1700000000000; random36 := "0.4fzyo82mvyr" |}
  = "user_1700000000000_82mvyr".
Proof. reflexivity. Qed.

Example generateTestId_short_random :
  generateTestId_api None {| now := 1700000000000; random36 := "0.i" |}
  = "test_1700000000000_".
Proof. reflexivity. Qed.

Example encodeURIComponent_sample :
  encodeURIComponent "a b/c?d=e&f_g-h.i~j'k(l)*m!"
  = "a%20b%2Fc%3Fd%3De%26f_g-h.i~j'k(l)*m!".
Proof. reflexivity. Qed.

Example isAbsoluteURL_samples :
  (isAbsoluteURL "https://x.y/z", isAbsoluteURL "//x", isAbsoluteURL "/users",
   isAbsoluteURL "a:/b")
  = (true, true, false, false).
Proof. reflexivity. Qed.

Example combineURLs_samples :
  (combineURLs "https://a/" "/users", combineURLs "https://a//" "//users",
   combineURLs "https://a" "users", combineURLs "https://a/" "")
  = ("https://a/users", "https://a/users", "https://a/users", "https://a/").
Proof. reflexivity. Qed.

Example user_delete_sample :
  issued (UserAPI.delete "user 1") (runtime_of echoing) (mkWorld tt [])
  = [Http {| method := DELETE;
             baseURL := "https://api-APP.sendbird.com/v3";
             url := "/users/user%201";
             headers := [("Content-Type", "application/json"); ("Api-Token", "TOKEN")];
             data := None;
             params := None |}].
Proof. reflexivity. Qed.

Example message_get_sample :
  map url (match issued (MessageAPI.get "ch" 999999999999) (runtime_of echoing)
                   (mkWorld tt []) with
           | [Http r] => [r]
           | _ => []
           end)
  = ["/group_channels/ch/messages/999999999999"].
Proof. reflexivity. Qed.

Example unset_environment :
  BASE_URL {| SENDBIRD_APP_ID := None; SENDBIRD_API_TOKEN := Some "" |}
  = "https://api-.sendbird.com/v3".
Proof. reflexivity. Qed.

End Examples.

(* ===================================================================== *)
(** * Properties of identifier generation *)
(* ===================================================================== *)

Module TestIdFacts.
Import Js TestId.

Lemma substring_from_length (k : nat) (s : string) :
  String.length (substring_from k s) = String.length s - k.
Proof.
  revert s; induction k as [|k IH]; intros s.
  - simpl. lia.
  - destruct s as [|c s]; simpl; [reflexivity | apply IH].
Qed.

Lemma string_of_uint_digits (d : Decimal.uint) :
  all_digits (NilEmpty.string_of_uint d) = true.
Proof.
  induction d; simpl; auto.
Qed.

Lemma number_to_string_digits (n : N) : all_digits (number_to_string n) = true.
Proof. apply string_of_uint_digits. Qed.

Lemma number_to_string_inj (n m : N) :
  number_to_string n = number_to_string m -> n = m.
Proof.
  unfold number_to_string; intros H.
  apply DecimalN.Unsigned.to_uint_inj.
  assert (E : Some (N.to_uint n) = Some (N.to_uint m)).
  { rewrite <- (NilEmpty.usu (N.to_uint n)), <- (NilEmpty.usu (N.to_uint m)).
    now rewrite H. }
  now injection E.
Qed.

Lemma number_to_string_nonempty (n : N) : number_to_string n <> "".
Proof.
  intros H.
  assert (E : number_to_string n = number_to_string 0) by
    (destruct n as [|p]; [reflexivity|]; exfalso; revert H;
     unfold number_to_string; simpl;
     generalize (DecimalPos.Unsigned.to_uint_nonnil p);
     destruct (Pos.to_uint p); simpl; congruence).
  apply number_to_string_inj in E; subst n. discriminate H.
Qed.

Lemma append_cancel_l (p x y : string) : (p ++ x = p ++ y)%string -> x = y.
Proof.
  induction p as [|c p IH]; simpl; intros H; [assumption|].
  injection H as H. auto.
Qed.

(** Two strings of digits, each followed by an underscore, agree only if
    the digits agree: the first underscore marks where the digits end. *)
Lemma digits_underscore_split (d1 d2 r1 r2 : string) :
  all_digits d1 = true -> all_digits d2 = true ->
  (d1 ++ String "_" r1 = d2 ++ String "_" r2)%string ->
  d1 = d2 /\ r1 = r2.
Proof.
  revert d2; induction d1 as [|c d1 IH]; intros [|c2 d2]; simpl; intros H1 H2 E.
  - injection E as E. auto.
  - injection E as Ec _. subst c2. discriminate H2.
  - injection E as Ec _. subst c. discriminate H1.
  - injection E as Ec E. subst c2.
    apply andb_prop in H1 as [_ H1]. apply andb_prop in H2 as [_ H2].
    destruct (IH d2 H1 H2 E) as [-> ->]. auto.
Qed.

Lemma generateTestId_eq_iff (p : string) (c1 c2 : Clock) :
  generateTestId p c1 = generateTestId p c2 <->
  now c1 = now c2 /\ randomToken c1 = randomToken c2.
Proof.
  unfold generateTestId; split.
  - intros H. apply append_cancel_l in H. simpl in H. injection H as H.
    apply digits_underscore_split in H; try apply number_to_string_digits.
    destruct H as [Hn Hr]. split; [now apply number_to_string_inj | assumption].
  - intros [-> ->]. reflexivity.
Qed.

(** C5. For every prefix, timestamp and random string observed, both
    generators return the prefix, an underscore, the decimal digits of the
    timestamp in milliseconds, an underscore, and the random token; the
    token is what is left of [Math.random().toString(36)] after its first
    seven characters, so it is at most that much shorter; an omitted prefix
    of the REST utility reads ["test"]. *)
Theorem generateTestId_format (p : string) (c : Clock) :
  generateTestId p c
    = (p ++ "_" ++ number_to_string (now c) ++ "_" ++ randomToken c)%string
  /\ generateTestId_api (Some p) c = generateTestId p c
  /\ generateTestId_api None c = generateTestId "test" c
  /\ all_digits (number_to_string (now c)) = true
  /\ number_to_string (now c) <> ""
  /\ randomToken c = substring_from 7 (random36 c)
  /\ String.length (randomToken c) = String.length (random36 c) - 7.
Proof.
  repeat split.
  - apply number_to_string_digits.
  - apply number_to_string_nonempty.
  - apply substring_from_length.
Qed.

(** C6, as stated, fails: two calls in the same millisecond whose random
    strings differ only in their first seven characters return the same
    identifier. *)
Lemma generateTestId_collision :
  let c1 := {| now := 1700000000000; random36 := "0.4fzyo82mvyr" |} in
  let c2 := {| now := 1700000000000; random36 := "0.9k3ba82mvyr" |} in
  random36 c1 <> random36 c2 /\
  generateTestId "user" c1 = generateTestId "user" c2 /\
  generateTestId_api (Some "user") c1 = generateTestId_api (Some "user") c2.
Proof.
  cbv zeta. split; [discriminate | split; reflexivity].
Qed.

(** C6, amended. For every prefix, two calls return the same identifier
    exactly when they observe the same millisecond and the same random
    token; calls that differ in either return different identifiers. *)
Theorem generateTestId_distinct_iff (p : OptStr) (c1 c2 : Clock) :
  (generateTestId_api p c1 <> generateTestId_api p c2 <->
     now c1 <> now c2 \/ randomToken c1 <> randomToken c2)
  /\ (forall q, generateTestId q c1 <> generateTestId q c2 <->
        now c1 <> now c2 \/ randomToken c1 <> randomToken c2).
Proof.
  assert (G : forall q, generateTestId q c1 <> generateTestId q c2 <->
                now c1 <> now c2 \/ randomToken c1 <> randomToken c2).
  { intros q. rewrite generateTestId_eq_iff. split.
    - intros H. destruct (N.eq_dec (now c1) (now c2)) as [E|E]; [|now left].
      right. intros E'. apply H. split; assumption.
    - intros [H|H] [E1 E2]; contradiction. }
  split; [|exact G].
  destruct p as [q|]; [exact (G q) | exact (G "test")].
Qed.

End TestIdFacts.

(* ===================================================================== *)
(** * Properties of the REST client wrapper *)
(* ===================================================================== *)

Module ApiFacts.
Import Js Remote Uri SendbirdApi.

Lemma drop_trailing_slash_v3 (a : string) :
  drop_trailing_slash (a ++ "3") = (a ++ "3")%string.
Proof.
  induction a as [|c a IH]; [reflexivity|].
  simpl. rewrite IH.
  destruct (Ascii.eqb c "/"); [|reflexivity].
  destruct a as [|c' a]; [reflexivity|].
  simpl. destruct (Ascii.eqb c' "/"); simpl; [|reflexivity].
  destruct a; reflexivity.
Qed.

Lemma append_assoc (a b c : string) : ((a ++ b) ++ c = a ++ (b ++ c))%string.
Proof. induction a as [|x a IH]; simpl; [reflexivity | now rewrite IH]. Qed.

Lemma BASE_URL_ends_v3 (env : ProcessEnv) :
  exists a, BASE_URL env = (a ++ "3")%string.
Proof.
  exists ("https://api-" ++ APP_ID env ++ ".sendbird.com/v")%string.
  unfold BASE_URL. rewrite !append_assoc. reflexivity.
Qed.

(** axios sends a rooted path of the wrapper to the base URL followed by
    the path. *)
Lemma buildFullPath_rooted (env : ProcessEnv) (u : string) :
  rooted_path u = true ->
  isAbsoluteURL u = false /\
  buildFullPath (BASE_URL env) u = (BASE_URL env ++ u)%string.
Proof.
  destruct u as [|a [|c u]]; try discriminate.
  unfold rooted_path. intros H. apply andb_prop in H as [Ha Hc].
  apply Ascii.eqb_eq in Ha. subst a.
  apply negb_true_iff in Hc.
  assert (Hc' : Ascii.eqb "/" c = false) by (rewrite Ascii.eqb_sym; exact Hc).
  assert (Habs : isAbsoluteURL (String "/" (String c u)) = false).
  { change (isAbsoluteURL (String "/" (String c u)))
      with ((Ascii.eqb "/" "/" && (Ascii.eqb "/" c && true))
            || (is_alpha "/" && scheme_tail (String c u))).
    rewrite Hc'. reflexivity. }
  split; [exact Habs|].
  unfold buildFullPath. rewrite Habs.
  destruct (BASE_URL_ends_v3 env) as [a Ea]. rewrite Ea.
  replace (match (a ++ "3")%string with EmptyString => String "/" (String c u)
           | String _ _ => combineURLs (a ++ "3") (String "/" (String c u)) end)
    with (combineURLs (a ++ "3") (String "/" (String c u)))
    by (destruct a; reflexivity).
  unfold combineURLs. rewrite drop_trailing_slash_v3.
  change (drop_leading_slashes (String "/" (String c u)))
    with (if Ascii.eqb c "/" then drop_leading_slashes u else String c u).
  rewrite Hc. reflexivity.
Qed.

(** The one request an operation issues. *)
Lemma invoke_request {S} (op : Operation) (rt : Runtime) (w : World S) :
  exists m path d p,
    calls (snd (invoke op rt w))
      = calls w ++ [Http {| method := m;
                            baseURL := BASE_URL (process_env rt);
                            url := path;
                            headers := defaults_headers (apiClient (process_env rt));
                            data := d;
                            params := p |}]
    /\ rooted_path path = true
    /\ fst (invoke op rt w)
       = http_reply (vendor rt) (calls w)
           {| method := m;
              baseURL := BASE_URL (process_env rt);
              url := path;
              headers := defaults_headers (apiClient (process_env rt));
              data := d;
              params := p |}.
Proof.
  destruct op; simpl;
    do 4 eexists; (split; [reflexivity | split; reflexivity]).
Qed.

(** C8. Every operation of [UserAPI], [ChannelAPI] and [MessageAPI], on
    any arguments and in any environment, issues exactly one request; its
    base URL is [https://api-<APP_ID>.sendbird.com/v3] with the
    application identifier of the environment (empty when unset), its path
    is rooted, so axios sends it to the base URL followed by the path, and
    it carries the [Api-Token] header with the token of the environment
    and [Content-Type: application/json]. *)
Theorem every_request_targets_vendor_base (S : Type) (op : Operation)
    (rt : Runtime) (w : World S) :
  exists req,
    calls (snd (invoke op rt w)) = calls w ++ [Http req]
    /\ baseURL req
       = ("https://api-" ++ or_else (SENDBIRD_APP_ID (process_env rt)) ""
            ++ ".sendbird.com/v3")%string
    /\ isAbsoluteURL (url req) = false
    /\ buildFullPath (baseURL req) (url req) = (baseURL req ++ url req)%string
    /\ header "Api-Token" (headers req)
       = Some (or_else (SENDBIRD_API_TOKEN (process_env rt)) "")
    /\ header "Content-Type" (headers req) = Some "application/json".
Proof.
  destruct (invoke_request op rt w) as (m & path & d & p & Hc & Hp & _).
  destruct (buildFullPath_rooted (process_env rt) path Hp) as [Habs Hfull].
  eexists. split; [exact Hc|]. simpl.
  repeat split; assumption || reflexivity.
Qed.



Lemma get_prop_app_other (k k' : string) (v : JsVal) (d : JsObject) :
  String.eqb k k' = false -> get_prop k (d ++ [(k', v)]) = get_prop k d.
Proof.
  intros H. induction d as [|[k0 v0] d IH]; simpl.
  - now rewrite H.
  - destruct (String.eqb k k0); [reflexivity | exact IH].
Qed.

(** The vendor that answers with what it was sent does store the
    [profile_url]. *)
Lemma echoing_stores_profile_url : stores_profile_url Observe.echoing.
Proof.
  intros h req d r Hd Hr. simpl in Hr. rewrite Hd in Hr. injection Hr as <-.
  eexists. split; [reflexivity|]. now apply get_prop_app_other.
Qed.

(** Against such a vendor TC-USER-001 passes, whatever the clock reads,
    and records the identifier it created. *)
Lemma tc_user_001_passes (c : TestId.Clock) (w : World UserCreateSuite.Vars) :
  UserCreateSuite.tc_user_001 c (Observe.runtime_of Observe.echoing) w
  = (Returned tt,
     mkWorld (UserCreateSuite.push (TestId.generateTestId_api (Some "user") c) (vars w))
       (calls w ++ [Http {| method := POST;
                            baseURL := BASE_URL Observe.sample_env;
                            url := "/users";
                            headers := defaults_headers (apiClient Observe.sample_env);
                            data := Some [("user_id", JStr (TestId.generateTestId_api (Some "user") c));
                                          ("nickname", JStr "TestUser");
                                          ("profile_url", JStr "")];
                            params := None |}])).
Proof.
  unfold UserCreateSuite.tc_user_001, bind, UserAPI.create, client_post,
    axios_request, http, modify, expect_toBe, UserCreateSuite.data_prop, ret.
  simpl. rewrite String.eqb_refl. reflexivity.
Qed.

End ApiFacts.

(* ===================================================================== *)
(** * Properties of the teardown hooks *)
(* ===================================================================== *)

Module HookFacts.
Import Js Remote Remote.Notations SendbirdApi Uri Observe.

Lemma skipn_length_app {A} (l t : list A) : skipn (List.length l) (l ++ t) = t.
Proof. induction l as [|x l IH]; simpl; [reflexivity | exact IH]. Qed.

(** The runner always reaches the hook, in the world the body left. *)
Lemma teardown_always_runs {S} (body teardown : M S unit) (rt : Runtime) (w : World S) :
  snd (run_with_teardown body teardown rt w) = snd (teardown rt (snd (body rt w))).
Proof.
  unfold run_with_teardown.
  destruct (body rt w) as [[[]|e] w']; simpl; [reflexivity|].
  destruct (teardown rt w'); reflexivity.
Qed.

(** A loop whose body issues one call per element inside its own
    [try]/[catch] issues them all, in order, and completes. *)
Lemma for_of_guarded {S X} (rt : Runtime) (f : X -> M S HttpResponse) (c : X -> Call) :
  (forall x w, snd (f x rt w) = mkWorld (vars w) (calls w ++ [c x])) ->
  forall xs w,
    for_of xs (fun x => try_catch (f x ;; ret tt)%js ignore) rt w
    = (Returned tt, mkWorld (vars w) (calls w ++ map c xs)).
Proof.
  intros Hf xs. induction xs as [|x xs IH]; intros w.
  - simpl. rewrite app_nil_r. destruct w; reflexivity.
  - simpl. unfold bind at 1. unfold try_catch at 1. unfold bind at 1.
    specialize (Hf x w). destruct (f x rt w) as [[r|e] w']; simpl in Hf; subst w';
      simpl; rewrite IH; simpl; rewrite <- app_assoc; reflexivity.
Qed.

Lemma user_delete_world {S} (rt : Runtime) (userId : string) (w : World S) :
  snd (UserAPI.delete userId rt w)
  = mkWorld (vars w) (calls w ++ [user_cleanup (process_env rt) userId]).
Proof. reflexivity. Qed.

Lemma channel_delete_world {S} (rt : Runtime) (channelUrl : string) (w : World S) :
  snd (ChannelAPI.delete channelUrl rt w)
  = mkWorld (vars w) (calls w ++ [channel_cleanup (process_env rt) channelUrl]).
Proof. reflexivity. Qed.

(** The [afterEach] of the user suite. *)
Lemma user_afterEach_run (rt : Runtime) (w : World UserCreateSuite.Vars) :
  UserCreateSuite.afterEach rt w
  = (Returned tt,
     mkWorld {| UserCreateSuite.createdUserIds := [] |}
       (calls w ++ map (user_cleanup (process_env rt))
                       (UserCreateSuite.createdUserIds (vars w)))).
Proof.
  unfold UserCreateSuite.afterEach.
  unfold bind at 1. unfold gets at 1. unfold bind at 1.
  rewrite (for_of_guarded rt (@UserAPI.delete _) (user_cleanup (process_env rt)))
    by (intros; apply user_delete_world).
  reflexivity.
Qed.

Lemma delete_channels_run (rt : Runtime) (w : World ChannelCreateSuite.Vars) :
  ChannelCreateSuite.delete_channels rt w
  = (Returned tt,
     mkWorld (vars w)
       (calls w ++ map (channel_cleanup (process_env rt))
                       (ChannelCreateSuite.createdChannelUrls (vars w)))).
Proof.
  unfold ChannelCreateSuite.delete_channels.
  unfold bind at 1. unfold gets at 1.
  rewrite (for_of_guarded rt (@ChannelAPI.delete _) (channel_cleanup (process_env rt)))
    by (intros; apply channel_delete_world).
  reflexivity.
Qed.

(** The block that deletes the two users: the second call is issued only
    if the first resolved. *)
Lemma delete_users_run (rt : Runtime) (w : World ChannelCreateSuite.Vars) :
  let r1 := user_cleanup_request (process_env rt) (ChannelCreateSuite.testUserId (vars w)) in
  let u1 := user_cleanup (process_env rt) (ChannelCreateSuite.testUserId (vars w)) in
  let u2 := user_cleanup (process_env rt) (ChannelCreateSuite.testUserId2 (vars w)) in
  ChannelCreateSuite.delete_users rt w
  = (Returned tt,
     mkWorld (vars w)
       (calls w ++
        match http_reply (vendor rt) (calls w) r1 with
        | Returned _ => [u1; u2]
        | Thrown _ => [u1]
        end)).
Proof.
  unfold ChannelCreateSuite.delete_users, try_catch, bind, gets,
    UserAPI.delete, client_delete, axios_request, http,
    user_cleanup, user_cleanup_request, delete_request, ignore, ret.
  simpl.
  destruct (http_reply (vendor rt) (calls w) _) as [r1|e1]; simpl; [|reflexivity].
  destruct (http_reply (vendor rt) _ _) as [r2|e2]; simpl;
    rewrite <- app_assoc; reflexivity.
Qed.

Lemma channel_afterAll_run (rt : Runtime) (w : World ChannelCreateSuite.Vars) :
  let env := process_env rt in
  let v := vars w in
  let loop := map (channel_cleanup env) (ChannelCreateSuite.createdChannelUrls v) in
  let r1 := user_cleanup_request env (ChannelCreateSuite.testUserId v) in
  let u1 := user_cleanup env (ChannelCreateSuite.testUserId v) in
  let u2 := user_cleanup env (ChannelCreateSuite.testUserId2 v) in
  ChannelCreateSuite.afterAll rt w
  = (Returned tt,
     mkWorld v
       (calls w ++ loop ++
        match http_reply (vendor rt) (calls w ++ loop) r1 with
        | Returned _ => [u1; u2]
        | Thrown _ => [u1]
        end)).
Proof.
  cbv zeta. unfold ChannelCreateSuite.afterAll, bind.
  rewrite delete_channels_run.
  rewrite delete_users_run. simpl. rewrite <- app_assoc. reflexivity.
Qed.

Lemma filter_deletes_channels (env : ProcessEnv) (urls : list string) :
  filter (deletes_under "/group_channels/") (map (channel_cleanup env) urls)
  = map (channel_cleanup env) urls.
Proof.
  induction urls as [|u urls IH]; simpl; [reflexivity | now rewrite IH].
Qed.

End HookFacts.

Module TeardownClaims.
Import Js Remote Remote.Notations SendbirdApi Uri Observe HookFacts.


(** In a collection loop the call for a handle is issued even when every
    earlier call was rejected. *)
Lemma loop_reaches_every_handle (rt : Runtime) (w : World UserCreateSuite.Vars)
    (i : nat) (userId : string) :
  nth_error (UserCreateSuite.createdUserIds (vars w)) i = Some userId ->
  nth_error (issued UserCreateSuite.afterEach rt w) i
  = Some (user_cleanup (process_env rt) userId).
Proof.
  intros H. unfold issued. rewrite user_afterEach_run. simpl.
  rewrite skipn_length_app. rewrite nth_error_map, H. reflexivity.
Qed.

(** The block that deletes the two users stops at the first rejection. *)
Lemma delete_users_stops_at_rejection (rt : Runtime)
    (w : World ChannelCreateSuite.Vars) (e : JsError) :
  http_reply (vendor rt) (calls w)
    (user_cleanup_request (process_env rt) (ChannelCreateSuite.testUserId (vars w)))
  = Thrown e ->
  issued ChannelCreateSuite.delete_users rt w
  = [user_cleanup (process_env rt) (ChannelCreateSuite.testUserId (vars w))].
Proof.
  intros H. unfold issued. rewrite delete_users_run. cbv zeta. rewrite H.
  simpl. apply skipn_length_app.
Qed.

(** C2 fails on the user-deletion block of the channel suite's
    [afterAll]: when the vendor rejects the deletion of [testUserId], the
    deletion of [testUserId2], the next handle, is never issued. The two
    channels of the collection, each in its own [try], are both attempted. *)
Theorem delete_users_abandons_second_user :
  let rt := runtime_of (rejecting "/users/channel_owner_1") in
  let w := mkWorld {| ChannelCreateSuite.testUserId := "channel_owner_1";
                      ChannelCreateSuite.testUserId2 := "channel_member_2";
                      ChannelCreateSuite.createdChannelUrls := ["ch_a"; "ch_b"] |} [] in
  ChannelCreateSuite.afterAll rt w
  = (Returned tt,
     mkWorld (vars w)
       [channel_cleanup sample_env "ch_a";
        channel_cleanup sample_env "ch_b";
        user_cleanup sample_env "channel_owner_1"])
  /\ ~ In (user_cleanup sample_env "channel_member_2")
          (calls (snd (ChannelCreateSuite.afterAll rt w))).
Proof.
  cbv zeta. split; [reflexivity|].
  intros H. vm_compute in H.
  repeat (destruct H as [H|H]; [discriminate H|]). exact H.
Qed.

(** The hooks of the REST suites complete whatever the vendor answers. *)
Lemma rest_teardowns_complete :
  (forall rt w, fst (UserCreateSuite.afterEach rt w) = Returned tt)
  /\ (forall rt w, fst (ChannelCreateSuite.afterAll rt w) = Returned tt).
Proof.
  split; intros rt w.
  - now rewrite user_afterEach_run.
  - now rewrite channel_afterAll_run.
Qed.

(** The only error the [afterAll] of the SDK message suite lets through
    is the one of its last statement, [await sb.disconnect()]. *)
Lemma sdk_afterAll_outcome (rt : Runtime) (w : World SdkMessageSuite.Vars) :
  fst (SdkMessageSuite.afterAll rt w) = Returned tt
  \/ (SdkMessageSuite.sb (vars w) = None
      /\ fst (SdkMessageSuite.afterAll rt w) = Thrown TypeError)
  \/ (exists h e, sdk_reply (vendor rt) h SbDisconnect = Thrown e
                  /\ fst (SdkMessageSuite.afterAll rt w) = Thrown e).
Proof.
  destruct w as [[s oc gc] cs].
  unfold SdkMessageSuite.afterAll, bind, try_catch, gets, ignore, ret,
    SdkMessageSuite.call_on, sdk, bind, ret. simpl.
  destruct oc as [oc|]; destruct gc as [gc|]; destruct s as [s|]; simpl;
  repeat match goal with
  | |- context [sdk_reply ?v ?h SbDisconnect] =>
      let E := fresh "E" in
      destruct (sdk_reply v h SbDisconnect) eqn:E; simpl;
      [ left; reflexivity | right; right; eexists _, _; split; [exact E | reflexivity] ]
  | |- context [sdk_reply ?v ?h ?c] => destruct (sdk_reply v h c); simpl
  end;
  try (right; left; split; reflexivity).
Qed.

(** C3 fails on the [afterAll] of the SDK message suite: its
    [await sb.disconnect()] stands outside every [try], so a rejected
    disconnect, or an [sb] that [beforeAll] never assigned, makes the hook
    throw although the exit, delete and leave calls before it were issued
    and their errors swallowed. *)
Theorem sdk_afterAll_propagates_disconnect_failure :
  let w := mkWorld {| SdkMessageSuite.sb := Some [];
                      SdkMessageSuite.testOpenChannel := Some "open_channel";
                      SdkMessageSuite.testGroupChannel := Some "group_channel" |} [] in
  let w0 := mkWorld {| SdkMessageSuite.sb := None;
                       SdkMessageSuite.testOpenChannel := None;
                       SdkMessageSuite.testGroupChannel := None |} [] in
  SdkMessageSuite.afterAll (runtime_of disconnect_fails) w
  = (Thrown (SendbirdError 800120),
     mkWorld (vars w)
       [Sdk (ChannelExit "open_channel"); Sdk (ChannelDelete "open_channel");
        Sdk (ChannelLeave "group_channel"); Sdk SbDisconnect])
  /\ SdkMessageSuite.afterAll (runtime_of echoing) w0 = (Thrown TypeError, w0).
Proof.
  cbv zeta. split; reflexivity.
Qed.

End TeardownClaims.

(* ===================================================================== *)
(** * Properties of the promise wrapper *)
(* ===================================================================== *)

Module PromiseFacts.
Import Js Remote PromiseWrap.

Section Wrapper.
Variable h : RequestHandler.

Lemma first_callback_settles (ev : Fired) :
  fire (executor h) ev Pending = forwarded ev.
Proof. destruct ev; reflexivity. Qed.

Lemma settled_ignores_callback (ev : Fired) (p : PromiseState) :
  is_pending p = false -> fire (executor h) ev p = p.
Proof. destruct p, ev; simpl; intros H; try discriminate H; reflexivity. Qed.

Lemma settled_stays (evs : list Fired) (p : PromiseState) :
  is_pending p = false -> run (executor h) evs p = p.
Proof.
  induction evs as [|ev evs IH]; intros H; simpl; [reflexivity|].
  rewrite settled_ignores_callback by exact H. apply IH, H.
Qed.

Lemma settled_counts_nothing (evs : list Fired) (p : PromiseState) :
  is_pending p = false -> settlements (executor h) evs p = 0.
Proof.
  induction evs as [|ev evs IH]; intros H; simpl; [reflexivity|].
  rewrite settled_ignores_callback by exact H. rewrite H. simpl. apply IH, H.
Qed.

Lemma forwarded_not_pending (ev : Fired) : is_pending (forwarded ev) = false.
Proof. destruct ev; reflexivity. Qed.

Lemma run_from_pending (evs : list Fired) :
  run (executor h) evs Pending
  = match evs with [] => Pending | ev :: _ => forwarded ev end.
Proof.
  destruct evs as [|ev evs]; simpl; [reflexivity|].
  rewrite first_callback_settles. apply settled_stays, forwarded_not_pending.
Qed.

Lemma settlements_from_pending (evs : list Fired) :
  settlements (executor h) evs Pending
  = match evs with [] => 0 | _ :: _ => 1 end.
Proof.
  destruct evs as [|ev evs]; simpl; [reflexivity|].
  rewrite first_callback_settles, forwarded_not_pending. simpl.
  now rewrite settled_counts_nothing by apply forwarded_not_pending.
Qed.

End Wrapper.

(** C4. Whenever a callback fires, the wrapped promise settles exactly
    once: a first [onSucceeded] fulfils it with the message, a first
    [onFailed] rejects it with the error, and whatever fires afterwards
    changes nothing, so no run of callbacks shows the promise fulfilled at
    one moment and rejected at another. An executor that throws rejects
    the promise; with no callback at all it stays pending. *)
Theorem wrapped_promise_settles_once :
  (forall msg evs, wrapped (Fires (Succeeded msg :: evs)) = Fulfilled msg)
  /\ (forall err evs, wrapped (Fires (Failed err :: evs)) = Rejected err)
  /\ (forall ev evs, settlements (executor fresh_handler) (ev :: evs) Pending = 1)
  /\ (forall ev evs later,
        wrapped (Fires ((ev :: evs) ++ later)) = wrapped (Fires (ev :: evs)))
  /\ (forall evs i j value reason,
        ~ (wrapped (Fires (firstn i evs)) = Fulfilled value
           /\ wrapped (Fires (firstn j evs)) = Rejected reason))
  /\ (forall e, wrapped (ThrowsSync e) = Rejected e)
  /\ wrapped (Fires []) = Pending.
Proof.
  repeat split.
  - intros msg evs. unfold wrapped. now rewrite run_from_pending.
  - intros err evs. unfold wrapped. now rewrite run_from_pending.
  - intros ev evs. now rewrite settlements_from_pending.
  - intros ev evs later. unfold wrapped. now rewrite !run_from_pending.
  - intros evs i j value reason [Hi Hj]. unfold wrapped in Hi, Hj.
    rewrite run_from_pending in Hi, Hj.
    destruct evs as [|ev evs]; destruct i, j; simpl in Hi, Hj; try discriminate.
    destruct ev; discriminate.
Qed.

End PromiseFacts.

(* ===================================================================== *)
(** * Properties of the session helper *)
(* ===================================================================== *)

Module HelperFacts.
Import Js Remote SendbirdHelper Observe.

(** C9, as stated, fails: an access token that is supplied but empty is
    not forwarded; the helper calls [connect(userId)]. *)
Lemma connectUser_drops_empty_token :
  let w := mkWorld {| sbInstance := Some [] |} [] in
  sdk_calls (calls (snd (connectUser "user_1" (Some "") (runtime_of echoing) w)))
  = [SbConnect "user_1" None]
  /\ SbConnect "user_1" None <> SbConnect "user_1" (Some "").
Proof.
  cbv zeta. split; [reflexivity | discriminate].
Qed.

(** C9, amended. While the module-level instance is [null], [connectUser]
    and [disconnectUser] throw an error whose message says the SDK is not
    initialized and issue no call, for every user identifier and token.
    When [initSendbird] returns, the instance is set, and from then on
    [connectUser] issues exactly one [connect], with the access token when
    a non-empty one is supplied and without it otherwise, and returns or
    throws what that call does; [disconnectUser] issues one [disconnect]. *)
Theorem connect_needs_init_and_forwards_nonempty_token
    (userId : string) (accessToken appId : OptStr) (rt : Runtime)
    (sb : JsObject) (cs : list Call) :
  let off := mkWorld {| sbInstance := None |} cs in
  let on := mkWorld {| sbInstance := Some sb |} cs in
  let forwardedToken := if truthy accessToken then accessToken else None in
  connectUser userId accessToken rt off
    = (Thrown (Error "Sendbird SDK not initialized. Call initSendbird() first."), off)
  /\ disconnectUser rt off = (Thrown (Error "Sendbird SDK not initialized."), off)
  /\ includes "Sendbird SDK not initialized. Call initSendbird() first."
       "SDK not initialized" = true
  /\ includes "Sendbird SDK not initialized." "SDK not initialized" = true
  /\ connectUser userId accessToken rt on
     = (sdk_reply (vendor rt) cs (SbConnect userId forwardedToken),
        mkWorld {| sbInstance := Some sb |} (cs ++ [Sdk (SbConnect userId forwardedToken)]))
  /\ calls (snd (disconnectUser rt on)) = cs ++ [Sdk SbDisconnect]
  /\ match initSendbird appId rt off with
     | (Returned inst, w1) =>
         sbInstance (vars w1) = Some inst
         /\ connectUser userId accessToken rt w1
            = (sdk_reply (vendor rt) (calls w1) (SbConnect userId forwardedToken),
               mkWorld (vars w1) (calls w1 ++ [Sdk (SbConnect userId forwardedToken)]))
     | (Thrown _, w1) => sbInstance (vars w1) = None
     end.
Proof.
  cbv zeta. repeat split.
  - unfold connectUser, bind, gets, sdk. simpl.
    destruct (truthy accessToken); reflexivity.
  - unfold disconnectUser, bind, gets, sdk. simpl.
    destruct (sdk_reply (vendor rt) cs SbDisconnect); reflexivity.
  - unfold initSendbird, bind, sdk, modify, ret. simpl.
    destruct (sdk_reply (vendor rt) cs (SbInit _)) as [inst|e]; simpl; [|reflexivity].
    split; [reflexivity|].
    unfold connectUser, bind, gets, sdk. simpl.
    destruct (truthy accessToken); reflexivity.
Qed.

End HelperFacts.

(* ===================================================================== *)
(** * Properties of the negative-path tests *)
(* ===================================================================== *)

Module NegativeFacts.
Import Js Remote Remote.Notations SendbirdApi NegativeTests.

Lemma toContain_spec (codes : list Z) (item : JsVal) :
  existsb (fun c => strict_eqb (JNum c) item) codes = true
  <-> exists code, item = JNum code /\ In code codes.
Proof.
  rewrite existsb_exists. split.
  - intros (c & Hin & Hc). destruct item; try discriminate Hc.
    simpl in Hc. apply Z.eqb_eq in Hc. subst. eauto.
  - intros (code & -> & Hin). exists code. split; [exact Hin|].
    simpl. apply Z.eqb_refl.
Qed.

(** What the assertions of a [catch] block let through. *)
Lemma catch_block_spec {S} (codes : list Z) (error : JsError)
    (rt : Runtime) (w : World S) :
  fst (catch_block codes error rt w) = Returned tt
  <-> accepted codes (Thrown error).
Proof.
  unfold accepted, catch_block. split.
  - destruct error as [[r|]| | | |]; try discriminate.
    unfold bind, error_response, ret, expect_toBe, data_code, expect_toContain.
    simpl. destruct (Z.eqb_spec (status r) 400) as [Hs|Hs]; [|discriminate].
    simpl. destruct (body r) as [b|] eqn:Hb; [|discriminate]. simpl.
    destruct (existsb _ codes) eqn:Hc; [|discriminate]. intros _.
    apply toContain_spec in Hc as (code & Hcode & Hin).
    exists r, b, code. auto.
  - intros (r & b & code & He & Hs & Hb & Hcode & Hin).
    injection He as ->.
    unfold bind, error_response, ret, expect_toBe, data_code, expect_toContain.
    simpl. rewrite Hs. simpl. rewrite Hb. simpl.
    assert (Hc : existsb (fun c => strict_eqb (JNum c) (get_prop "code" b)) codes = true)
      by (apply toContain_spec; eauto).
    simpl in Hc. rewrite Hc. reflexivity.
Qed.

(** The shape shared by the tests: the action, then statements that end
    in the failing [expect(true).toBe(false)], all inside the [try]. *)
Lemma negative_pattern {S} (op : M S HttpResponse) (rest : M S unit)
    (codes : list Z) (rt : Runtime) (w : World S) :
  (forall w', fst (rest rt w') = Thrown ExpectError) ->
  fst (try_catch (op ;; rest)%js (catch_block codes) rt w) = Returned tt
  <-> accepted codes (fst (op rt w)).
Proof.
  intros Hrest. unfold try_catch, bind.
  destruct (op rt w) as [[r|e] w1]; simpl.
  - specialize (Hrest w1). destruct (rest rt w1) as [[[]|e'] w2]; simpl in Hrest;
      try discriminate Hrest. injection Hrest as ->.
    split.
    + intros H. apply catch_block_spec in H.
      destruct H as (? & ? & ? & H & _). discriminate H.
    + intros (? & ? & ? & H & _). discriminate H.
  - apply catch_block_spec.
Qed.

Lemma bind_Date_now {S A} (k : N -> M S A) (rt : Runtime) (w : World S) :
  bind Date_now k rt w = k (date_now rt (calls w)) rt w.
Proof. reflexivity. Qed.

Lemma test_body_spec (c : Case) (rt : Runtime) (w : World UserCreateSuite.Vars) :
  fst (test_body c rt w) = Returned tt
  <-> accepted (allow_list c)
        (fst (invoke (action c (date_now rt (calls w))) rt w)).
Proof.
  destruct c; unfold test_body, allow_list, action, invoke.
  - unfold tc_user_010.
    apply (negative_pattern
             (UserAPI.create (repeat_a (MAX_USER_ID_LENGTH + 1)) "ExceedLengthUser" None)
             (modify (UserCreateSuite.push (repeat_a (MAX_USER_ID_LENGTH + 1))) ;;
              expect_toBe (JBool true) (JBool false))%js).
    reflexivity.
  - unfold tc_user_011.
    apply (negative_pattern (UserAPI.create "" "EmptyIdUser" None)
             (expect_toBe (JBool true) (JBool false))).
    reflexivity.
  - unfold tc_user_014. rewrite bind_Date_now.
    apply (negative_pattern (UserAPI.get _) (expect_toBe (JBool true) (JBool false))).
    reflexivity.
  - unfold tc_user_017. rewrite bind_Date_now.
    apply (negative_pattern (UserAPI.update _ _ _) (expect_toBe (JBool true) (JBool false))).
    reflexivity.
  - unfold tc_user_019. rewrite bind_Date_now.
    apply (negative_pattern (UserAPI.delete _) (expect_toBe (JBool true) (JBool false))).
    reflexivity.
Qed.

(** An error with status 400 whose code is not in the list fails the test. *)
Lemma code_outside_allow_list_fails (c : Case) (rt : Runtime)
    (w : World UserCreateSuite.Vars) (r : HttpResponse) (b : JsObject) :
  fst (invoke (action c (date_now rt (calls w))) rt w) = Thrown (AxiosError (Some r)) ->
  body r = Some b ->
  (forall code, get_prop "code" b = JNum code -> ~ In code (allow_list c)) ->
  fst (test_body c rt w) <> Returned tt.
Proof.
  intros Ha Hb Hout Hpass.
  apply test_body_spec in Hpass.
  destruct Hpass as (r' & b' & code & He & _ & Hb' & Hcode & Hin).
  rewrite Ha in He. injection He as <-.
  rewrite Hb in Hb'. injection Hb' as <-.
  exact (Hout code Hcode Hin).
Qed.

Lemma expect_toContain_spec {S} (codes : list Z) (item : JsVal)
    (rt : Runtime) (w : World S) :
  fst (expect_toContain codes item rt w) = Returned tt
  <-> exists code, item = JNum code /\ In code codes.
Proof.
  rewrite <- toContain_spec. unfold expect_toContain.
  destruct (existsb _ codes); simpl; split; congruence.
Qed.

(** The verification step of TC-USER-018 does not look at the status. *)
Lemma tc_user_018_verify_spec {S} (userId : string) (rt : Runtime) (w : World S) :
  fst (tc_user_018_verify userId rt w) = Returned tt
  <-> exists r b code,
        fst (UserAPI.get userId rt w) = Thrown (AxiosError (Some r))
        /\ body r = Some b
        /\ get_prop "code" b = JNum code
        /\ In code [400201; 400301]%Z.
Proof.
  unfold tc_user_018_verify, try_catch, bind.
  destruct (UserAPI.get userId rt w) as [[r|e] w1]; simpl.
  - split; [discriminate | intros (? & ? & ? & H & _); discriminate H].
  - destruct e as [[r|]| | | |];
      try (simpl; split; [discriminate | intros (? & ? & ? & H & _); discriminate H]).
    unfold error_response, data_code, ret.
    destruct (body r) as [b|] eqn:Hb; cbn -[expect_toContain].
    + rewrite expect_toContain_spec. split.
      * intros (code & Hcode & Hin). exists r, b, code. auto.
      * intros (r' & b' & code & He & Hb' & Hcode & Hin).
        injection He as <-. rewrite Hb in Hb'. injection Hb' as <-. eauto.
    + split; [discriminate|].
      intros (r' & b' & code & He & Hb' & _).
      injection He as <-. congruence.
Qed.


End NegativeFacts.

(* ===================================================================== *)
(** * Further properties: URI encoding of handles *)
(* ===================================================================== *)

Module EncodingFacts.
Import Js Remote Uri SendbirdApi Observe Coerce.

Lemma hex_digit_unreserved (k : nat) :
  (k < 16)%nat -> uri_unreserved (hex_digit k) = true.
Proof.
  intros H. do 16 (destruct k as [|k]; [reflexivity|]). lia.
Qed.

Lemma hex_digit_inj (a b : nat) :
  (a < 16)%nat -> (b < 16)%nat -> hex_digit a = hex_digit b -> a = b.
Proof.
  intros Ha Hb H.
  assert (E : forall k, (k < 16)%nat ->
            nat_of_ascii (hex_digit k) = if (k <? 10)%nat then 48 + k else 55 + k).
  { intros k Hk. unfold hex_digit. destruct (k <? 10)%nat;
      apply nat_ascii_embedding; lia. }
  apply (f_equal nat_of_ascii) in H. rewrite !E in H by assumption.
  destruct (Nat.ltb_spec a 10), (Nat.ltb_spec b 10); lia.
Qed.

Lemma nat_of_ascii_bound (c : ascii) : (nat_of_ascii c < 256)%nat.
Proof. apply nat_ascii_bounded. Qed.

Lemma encodeURIComponent_cons (c : ascii) (s : string) :
  encodeURIComponent (String c s)
  = if uri_unreserved c then String c (encodeURIComponent s)
    else String "%" (String (hex_digit (nat_of_ascii c / 16))
           (String (hex_digit (nat_of_ascii c mod 16)) (encodeURIComponent s))).
Proof. reflexivity. Qed.

Lemma encodeURIComponent_alphabet (s : string) :
  string_forallb component_char (encodeURIComponent s) = true.
Proof.
  induction s as [|c s IH]; [reflexivity|].
  rewrite encodeURIComponent_cons.
  destruct (uri_unreserved c) eqn:Hc; cbn [string_forallb].
  - unfold component_char at 1. rewrite Hc, IH. reflexivity.
  - pose proof (nat_of_ascii_bound c) as Hb.
    assert (H1 : component_char (hex_digit (nat_of_ascii c / 16)) = true).
    { unfold component_char. rewrite hex_digit_unreserved; [reflexivity|].
      apply Nat.Div0.div_lt_upper_bound. lia. }
    assert (H2 : component_char (hex_digit (nat_of_ascii c mod 16)) = true).
    { unfold component_char. rewrite hex_digit_unreserved; [reflexivity|].
      apply Nat.mod_upper_bound. lia. }
    rewrite H1, H2, IH. reflexivity.
Qed.

Lemma forallb_excludes (p : ascii -> bool) (c : ascii) (s : string) :
  p c = false -> string_forallb p s = true -> occurs c s = false.
Proof.
  intros Hc. induction s as [|c' s IH]; simpl; [reflexivity|].
  intros H. apply andb_prop in H as [H1 H2].
  rewrite (IH H2), orb_false_r.
  destruct (Ascii.eqb_spec c c') as [->|]; [congruence | reflexivity].
Qed.

Lemma encodeURIComponent_inj (a b : string) :
  encodeURIComponent a = encodeURIComponent b -> a = b.
Proof.
  revert b; induction a as [|c a IH]; intros [|d b];
    rewrite ?encodeURIComponent_cons.
  - reflexivity.
  - destruct (uri_unreserved d); discriminate.
  - destruct (uri_unreserved c); discriminate.
  - destruct (uri_unreserved c) eqn:Hc, (uri_unreserved d) eqn:Hd; intros H.
    + injection H as -> H. f_equal. apply IH, H.
    + injection H as -> _. discriminate Hc.
    + injection H as <- _. discriminate Hd.
    + pose proof (nat_of_ascii_bound c) as Bc.
      pose proof (nat_of_ascii_bound d) as Bd.
      pose proof (Nat.div_mod_eq (nat_of_ascii c) 16) as Ec.
      pose proof (Nat.div_mod_eq (nat_of_ascii d) 16) as Ed.
      assert (Qc : (nat_of_ascii c / 16 < 16)%nat)
        by (apply Nat.Div0.div_lt_upper_bound; lia).
      assert (Qd : (nat_of_ascii d / 16 < 16)%nat)
        by (apply Nat.Div0.div_lt_upper_bound; lia).
      assert (Rc : (nat_of_ascii c mod 16 < 16)%nat)
        by (apply Nat.mod_upper_bound; lia).
      assert (Rd : (nat_of_ascii d mod 16 < 16)%nat)
        by (apply Nat.mod_upper_bound; lia).
      set (qc := (nat_of_ascii c / 16)%nat) in *.
      set (rc := (nat_of_ascii c mod 16)%nat) in *.
      set (qd := (nat_of_ascii d / 16)%nat) in *.
      set (rd := (nat_of_ascii d mod 16)%nat) in *.
      clearbody qc rc qd rd.
      injection H as H1 H2 H.
      apply hex_digit_inj in H1; [|assumption|assumption].
      apply hex_digit_inj in H2; [|assumption|assumption].
      f_equal; [|apply IH, H].
      rewrite <- (ascii_nat_embedding c), <- (ascii_nat_embedding d).
      f_equal. lia.
Qed.

(** X1. Whatever the handle, the paths built for a user and for a channel
    keep it inside one segment: after the fixed prefix come only
    unreserved characters and percent escapes, so no slash, question mark,
    hash or space of the handle reaches the URL. *)
Theorem handle_stays_in_one_path_segment (S : Type) (rt : Runtime) (w : World S)
    (handle : string) :
  (exists r, issued (UserAPI.delete handle) rt w = [Http r]
             /\ url r = ("/users/" ++ encodeURIComponent handle)%string)
  /\ (exists r, issued (ChannelAPI.delete handle) rt w = [Http r]
                /\ url r = ("/group_channels/" ++ encodeURIComponent handle)%string)
  /\ string_forallb component_char (encodeURIComponent handle) = true
  /\ occurs "/" (encodeURIComponent handle) = false
  /\ occurs "?" (encodeURIComponent handle) = false
  /\ occurs "#" (encodeURIComponent handle) = false
  /\ occurs " " (encodeURIComponent handle) = false.
Proof.
  pose proof (encodeURIComponent_alphabet handle) as H.
  split; [|split].
  - eexists. unfold issued. simpl. rewrite HookFacts.skipn_length_app.
    split; reflexivity.
  - eexists. unfold issued. simpl. rewrite HookFacts.skipn_length_app.
    split; reflexivity.
  - repeat split; try exact H;
      (eapply forallb_excludes; [|exact H]); reflexivity.
Qed.

(** X2. Cleanup requests are one-to-one with handles: two users (two
    channels) get the same DELETE request only if they are the same handle,
    and a user's request is never a channel's. *)
Theorem cleanup_request_identifies_handle (env : ProcessEnv) (a b : string) :
  (user_cleanup env a = user_cleanup env b <-> a = b)
  /\ (channel_cleanup env a = channel_cleanup env b <-> a = b)
  /\ user_cleanup env a <> channel_cleanup env b.
Proof.
  repeat split.
  - intros H. injection H as H. now apply encodeURIComponent_inj.
  - now intros ->.
  - intros H. injection H as H. now apply encodeURIComponent_inj.
  - now intros ->.
  - intros H. discriminate H.
Qed.

End EncodingFacts.

(* ===================================================================== *)
(** * Further properties: identifiers with different prefixes *)
(* ===================================================================== *)

Module PrefixFacts.
Import Js Uri TestId.

Lemma common_start (p q x y : string) :
  (p ++ x = q ++ y)%string -> starts_with p q = true \/ starts_with q p = true.
Proof.
  revert q; induction p as [|a p IH]; intros q H.
  - left. destruct q; reflexivity.
  - destruct q as [|b q]; [right; reflexivity|].
    simpl in H. injection H as -> H.
    simpl. rewrite Ascii.eqb_refl. simpl. apply IH, H.
Qed.

(** X3. Two identifiers generated from prefixes neither of which starts
    the other are different, whatever the two calls observe: the owner and
    the member created by one [beforeAll] cannot collide even within one
    millisecond. *)
Theorem incomparable_prefixes_never_collide (p q : string) (c1 c2 : Clock) :
  starts_with p q = false ->
  starts_with q p = false ->
  generateTestId p c1 <> generateTestId q c2
  /\ generateTestId_api (Some p) c1 <> generateTestId_api (Some q) c2.
Proof.
  intros Hp Hq.
  assert (G : generateTestId p c1 <> generateTestId q c2).
  { intros H. apply common_start in H. destruct H; congruence. }
  split; exact G.
Qed.

(** X3 at the two prefixes of the channel suite, in one millisecond and
    with one random string. *)
Lemma incomparable_prefixes_never_collide_witness :
  starts_with "channel_owner" "channel_member" = false
  /\ starts_with "channel_member" "channel_owner" = false
  /\ generateTestId "channel_owner" {| now := 1700000000000; random36 := "0.4fzyo82mvyr" |}
     <> generateTestId "channel_member" {| now := 1700000000000; random36 := "0.4fzyo82mvyr" |}
  /\ generateTestId_api (Some "channel_owner")
       {| now := 1700000000000; random36 := "0.4fzyo82mvyr" |}
     <> generateTestId_api (Some "channel_member")
          {| now := 1700000000000; random36 := "0.4fzyo82mvyr" |}.
Proof.
  split; [reflexivity | split; [reflexivity|]].
  apply (incomparable_prefixes_never_collide "channel_owner" "channel_member");
    reflexivity.
Defined.

End PrefixFacts.

(* ===================================================================== *)
(** * Further properties: the wrapper is a pass-through *)
(* ===================================================================== *)

Module WrapperFacts.
Import Js Remote Uri SendbirdApi Observe.

(** X4. Every operation of the wrapper issues its one request and hands
    back exactly what the vendor does with it: the response when the
    request resolves, the vendor's error when it rejects; it catches
    nothing and changes no variable. *)
Theorem wrapper_hands_back_vendor_answer (S : Type) (op : Operation)
    (rt : Runtime) (w : World S) :
  exists req,
    issued (invoke op) rt w = [Http req]
    /\ fst (invoke op rt w) = http_reply (vendor rt) (calls w) req
    /\ vars (snd (invoke op rt w)) = vars w
    /\ (forall e, http_reply (vendor rt) (calls w) req = Thrown e ->
                  fst (invoke op rt w) = Thrown e).
Proof.
  destruct (ApiFacts.invoke_request op rt w) as (m & path & d & p & Hc & _ & Hr).
  eexists. unfold issued. rewrite Hc, HookFacts.skipn_length_app.
  split; [reflexivity|]. split; [exact Hr|]. split.
  - destruct op; reflexivity.
  - intros e He. rewrite Hr. exact He.
Qed.

(** X5. A request carries a body exactly when its verb is POST or PUT, and
    query parameters only when it is a GET: reads and deletions send
    nothing but the path. *)
Theorem body_goes_with_post_and_put (S : Type) (op : Operation)
    (rt : Runtime) (w : World S) :
  exists req,
    issued (invoke op) rt w = [Http req]
    /\ match method req with
       | POST | PUT => data req <> None /\ params req = None
       | GET => data req = None
       | DELETE => data req = None /\ params req = None
       end.
Proof.
  destruct op; eexists; unfold issued; simpl; rewrite HookFacts.skipn_length_app;
    (split; [reflexivity|]); simpl; repeat split; discriminate.
Qed.

End WrapperFacts.

(* ===================================================================== *)
(** * Further properties: the session helper's instance *)
(* ===================================================================== *)

Module SessionFacts.
Import Js Remote Remote.Notations SendbirdHelper Observe.

(** X6. [initSendbird] asks the vendor for an instance of the given
    application, of the environment's when the argument is absent or
    empty, of [''] when both are; when the vendor returns one it becomes
    the module's instance, the one [getSendbirdInstance] then returns;
    when the vendor throws, the error goes to the caller and the instance
    held before, if any, stays. *)
Theorem initSendbird_sets_or_keeps_instance (appId : OptStr) (rt : Runtime)
    (w : World ModuleState) :
  let app := or_else appId (or_else (SENDBIRD_APP_ID (process_env rt)) "") in
  let w1 := snd (initSendbird appId rt w) in
  issued (initSendbird appId) rt w = [Sdk (SbInit app)]
  /\ match sdk_reply (vendor rt) (calls w) (SbInit app) with
     | Returned inst =>
         fst (initSendbird appId rt w) = Returned inst
         /\ sbInstance (vars w1) = Some inst
         /\ fst (getSendbirdInstance rt w1) = Returned (Some inst)
     | Thrown e =>
         fst (initSendbird appId rt w) = Thrown e
         /\ vars w1 = vars w
         /\ fst (getSendbirdInstance rt w1) = Returned (sbInstance (vars w))
     end.
Proof.
  cbv zeta. unfold issued, initSendbird, getSendbirdInstance, APP_ID,
    bind, sdk, modify, ret, gets. simpl.
  destruct (sdk_reply (vendor rt) (calls w) (SbInit _)) as [inst|e]; simpl;
    rewrite HookFacts.skipn_length_app; repeat split.
Qed.

(** X7. [connectUser] and [disconnectUser] never change the module's
    instance, whatever they return: an initialized helper stays
    initialized after a disconnect, so a following [connectUser] reaches
    the vendor again, unless the disconnect itself was rejected, in which
    case that error is the result. *)
Theorem session_calls_keep_instance (userId : string) (accessToken : OptStr)
    (rt : Runtime) (sb : JsObject) (cs : list Call) (w : World ModuleState) :
  let on := mkWorld {| sbInstance := Some sb |} cs in
  let connect := SbConnect userId (if truthy accessToken then accessToken else None) in
  vars (snd (connectUser userId accessToken rt w)) = vars w
  /\ vars (snd (disconnectUser rt w)) = vars w
  /\ issued (disconnectUser ;; connectUser userId accessToken)%js rt on
     = Sdk SbDisconnect ::
       match sdk_reply (vendor rt) cs SbDisconnect with
       | Returned _ => [Sdk connect]
       | Thrown _ => []
       end
  /\ fst ((disconnectUser ;; connectUser userId accessToken)%js rt on)
     = match sdk_reply (vendor rt) cs SbDisconnect with
       | Returned _ => sdk_reply (vendor rt) (cs ++ [Sdk SbDisconnect]) connect
       | Thrown e => Thrown e
       end.
Proof.
  cbv zeta. repeat split.
  - unfold connectUser, bind, gets, sdk, throw. simpl.
    destruct (sbInstance (vars w)); [|reflexivity].
    destruct (truthy accessToken); reflexivity.
  - unfold disconnectUser, bind, gets, sdk, throw, ret. simpl.
    destruct (sbInstance (vars w)); [|reflexivity].
    destruct (sdk_reply (vendor rt) (calls w) SbDisconnect); reflexivity.
  - unfold issued, disconnectUser, connectUser, bind, gets, sdk, throw, ret. simpl.
    destruct (sdk_reply (vendor rt) cs SbDisconnect); simpl.
    + destruct (truthy accessToken); simpl;
        rewrite <- app_assoc; apply HookFacts.skipn_length_app.
    + apply HookFacts.skipn_length_app.
  - unfold disconnectUser, connectUser, bind, gets, sdk, throw, ret. simpl.
    destruct (sdk_reply (vendor rt) cs SbDisconnect); simpl; [|reflexivity].
    destruct (truthy accessToken); reflexivity.
Qed.

End SessionFacts.

(* ===================================================================== *)
(** * Further properties: the other teardown hooks *)
(* ===================================================================== *)

Module MoreHookFacts.
Import Js Remote Remote.Notations SendbirdApi Uri Observe HookFacts.

(** X8. The [afterAll] of the channel-list suite attempts every handle
    under any vendor: one DELETE per recorded channel, in order, then the
    DELETE of the suite's user, N + 1 calls in all; it never throws and
    leaves the variables as they were. *)
Theorem list_suite_teardown_attempts_everything (rt : Runtime)
    (w : World ChannelListSuite.Vars) :
  let env := process_env rt in
  let urls := ChannelListSuite.createdChannelUrls (vars w) in
  fst (ChannelListSuite.afterAll rt w) = Returned tt
  /\ issued ChannelListSuite.afterAll rt w
     = map (channel_cleanup env) urls
       ++ [user_cleanup env (ChannelListSuite.testUserId (vars w))]
  /\ List.length (issued ChannelListSuite.afterAll rt w) = S (List.length urls)
  /\ vars (snd (ChannelListSuite.afterAll rt w)) = vars w.
Proof.
  cbv zeta.
  assert (E : ChannelListSuite.afterAll rt w
              = (Returned tt,
                 mkWorld (vars w)
                   (calls w ++ map (channel_cleanup (process_env rt))
                                 (ChannelListSuite.createdChannelUrls (vars w))
                    ++ [user_cleanup (process_env rt)
                          (ChannelListSuite.testUserId (vars w))]))).
  { unfold ChannelListSuite.afterAll.
    unfold bind at 1. unfold gets at 1. unfold bind at 1.
    rewrite (for_of_guarded rt (@ChannelAPI.delete _) (channel_cleanup (process_env rt)))
      by (intros; apply channel_delete_world).
    unfold try_catch, bind, gets, UserAPI.delete, client_delete, axios_request,
      http, ignore, ret. simpl.
    destruct (http_reply (vendor rt) _ _); simpl; rewrite <- app_assoc; reflexivity. }
  unfold issued. rewrite E. simpl. rewrite skipn_length_app.
  repeat split. rewrite length_app, length_map. simpl. lia.
Qed.

(** X9. The [afterAll] of the member-management suite puts its three
    deletions in one [try]: it never throws, always attempts the channel,
    attempts the owner only if the channel's deletion resolved, and the
    invited user only if the owner's did too. *)
Theorem member_suite_teardown_stops_at_first_rejection (rt : Runtime)
    (w : World ChannelMemberSuite.Vars) :
  let env := process_env rt in
  let c := channel_cleanup_request env (ChannelMemberSuite.testChannelUrl (vars w)) in
  let o := user_cleanup_request env (ChannelMemberSuite.ownerUserId (vars w)) in
  let i := user_cleanup_request env (ChannelMemberSuite.inviteUserId (vars w)) in
  fst (ChannelMemberSuite.afterAll rt w) = Returned tt
  /\ issued ChannelMemberSuite.afterAll rt w
     = Http c ::
       match http_reply (vendor rt) (calls w) c with
       | Thrown _ => []
       | Returned _ =>
           Http o ::
           match http_reply (vendor rt) (calls w ++ [Http c]) o with
           | Thrown _ => []
           | Returned _ => [Http i]
           end
       end.
Proof.
  cbv zeta. unfold issued, ChannelMemberSuite.afterAll, try_catch, bind, gets,
    ChannelAPI.delete, UserAPI.delete, client_delete, axios_request, http,
    ignore, ret, channel_cleanup_request, user_cleanup_request, delete_request.
  simpl.
  destruct (http_reply (vendor rt) (calls w) _) as [r1|e1]; simpl.
  - destruct (http_reply (vendor rt) (calls w ++ _) _) as [r2|e2]; simpl.
    + destruct (http_reply (vendor rt) ((calls w ++ _) ++ _) _) as [r3|e3]; simpl;
        (split; [reflexivity|]); rewrite <- !app_assoc; apply skipn_length_app.
    + split; [reflexivity|]. rewrite <- !app_assoc. apply skipn_length_app.
  - split; [reflexivity|]. apply skipn_length_app.
Qed.

(** X10. In the [afterAll] of the SDK message suite the three blocks are
    independent: [exit] is attempted on the open channel and [delete]
    after it only if [exit] resolved; [leave] on the group channel and the
    final [disconnect] are attempted whatever happened before; a variable
    that was never assigned contributes no call. *)
Theorem sdk_teardown_blocks_are_independent (rt : Runtime)
    (w : World SdkMessageSuite.Vars) :
  issued SdkMessageSuite.afterAll rt w
  = match SdkMessageSuite.testOpenChannel (vars w) with
    | None => []
    | Some oc =>
        Sdk (ChannelExit oc) ::
        match sdk_reply (vendor rt) (calls w) (ChannelExit oc) with
        | Returned _ => [Sdk (ChannelDelete oc)]
        | Thrown _ => []
        end
    end
    ++ match SdkMessageSuite.testGroupChannel (vars w) with
       | None => []
       | Some gc => [Sdk (ChannelLeave gc)]
       end
    ++ match SdkMessageSuite.sb (vars w) with
       | None => []
       | Some _ => [Sdk SbDisconnect]
       end.
Proof.
  destruct w as [[s oc gc] cs].
  unfold issued, SdkMessageSuite.afterAll, bind, try_catch, gets, ignore, ret,
    SdkMessageSuite.call_on, sdk, bind, ret, throw. simpl.
  destruct oc as [oc|]; destruct gc as [gc|]; destruct s as [s|]; simpl;
    repeat match goal with
    | |- context [sdk_reply ?v ?h ?c] => destruct (sdk_reply v h c); simpl
    end;
    rewrite <- ?app_assoc; simpl;
    first [ apply skipn_length_app | apply skipn_all ].
Qed.

(** X11. The [afterEach] of the SDK connection suite never throws and
    never touches its variable; it issues a [disconnect], and nothing
    else, exactly when an instance is held whose [connectionState] is the
    string ['OPEN']. *)
Theorem connection_teardown_disconnects_only_when_open (rt : Runtime)
    (w : World SdkConnectionSuite.Vars) :
  fst (SdkConnectionSuite.afterEach rt w) = Returned tt
  /\ vars (snd (SdkConnectionSuite.afterEach rt w)) = vars w
  /\ issued SdkConnectionSuite.afterEach rt w
     = match SdkConnectionSuite.sb (vars w) with
       | Some o =>
           match get_prop "connectionState" o with
           | JStr state => if String.eqb state "OPEN" then [Sdk SbDisconnect] else []
           | _ => []
           end
       | None => []
       end.
Proof.
  destruct w as [[s] cs].
  unfold issued, SdkConnectionSuite.afterEach, try_catch, bind, gets, sdk,
    ignore, ret, SdkConnectionSuite.is_open. simpl.
  pose proof (skipn_all cs) as Hnil.
  destruct s as [o|]; simpl; [|auto].
  destruct (get_prop "connectionState" o) as [| | |state|]; simpl; auto.
  destruct (String.eqb state "OPEN"); simpl; auto.
  destruct (sdk_reply (vendor rt) cs SbDisconnect); simpl;
    repeat split; apply skipn_length_app.
Qed.

End MoreHookFacts.

(* ===================================================================== *)
(** * Further properties: setup and teardown together *)
(* ===================================================================== *)

Module LifecycleFacts.
Import Js Remote Remote.Notations SendbirdApi Uri Observe Coerce HookFacts TestId.



(** X13. TC-USER-001 followed by the suite's [afterEach]: the run issues
    the creation and then one DELETE for every identifier recorded before
    the test and, when the creation resolved, for the new user too,
    whether the assertions on the response then pass or fail; when the
    creation was rejected no DELETE is issued for it. The collection is
    empty afterwards. *)
Theorem created_user_is_always_cleaned_up (c : Clock) (rt : Runtime)
    (w : World UserCreateSuite.Vars) :
  let env := process_env rt in
  let userId := generateTestId_api (Some "user") c in
  let create := user_create_request env userId "TestUser" in
  let run := run_with_teardown (UserCreateSuite.tc_user_001 c) UserCreateSuite.afterEach in
  issued run rt w
  = Http create ::
    map (user_cleanup env)
      (UserCreateSuite.createdUserIds (vars w)
       ++ match http_reply (vendor rt) (calls w) create with
          | Returned _ => [userId]
          | Thrown _ => []
          end)
  /\ UserCreateSuite.createdUserIds (vars (snd (run rt w))) = [].
Proof.
  cbv zeta. unfold issued. rewrite teardown_always_runs, user_afterEach_run.
  simpl. split; [|reflexivity].
  unfold UserCreateSuite.tc_user_001, bind, UserAPI.create, client_post,
    axios_request, http, modify, expect_toBe, UserCreateSuite.data_prop, ret,
    throw, user_create_request, post_request. simpl.
  destruct (http_reply (vendor rt) (calls w) _) as [r|e]; simpl.
  - assert (E : forall o : Outcome unit * World UserCreateSuite.Vars,
              snd o = mkWorld (UserCreateSuite.push (generateTestId_api (Some "user") c) (vars w))
                        (calls w ++ [Http (user_create_request (process_env rt)
                                             (generateTestId_api (Some "user") c) "TestUser")]) ->
              skipn (List.length (calls w))
                (calls (snd o) ++ map (user_cleanup (process_env rt))
                                    (UserCreateSuite.createdUserIds (vars (snd o))))
              = Http (user_create_request (process_env rt)
                        (generateTestId_api (Some "user") c) "TestUser")
                :: map (user_cleanup (process_env rt))
                     (UserCreateSuite.createdUserIds (vars w)
                      ++ [generateTestId_api (Some "user") c])).
    { intros o ->. simpl. rewrite <- app_assoc. apply skipn_length_app. }
    apply E.
    destruct (status r =? 200)%Z; simpl; [|reflexivity].
    destruct (body r) as [b|]; simpl; [|reflexivity].
    repeat match goal with
    | |- context [if ?t then _ else _] => destruct t; simpl
    | |- context [match ?t with JUndefined => _ | _ => _ end] => destruct t; simpl
    end; reflexivity.
  - rewrite app_nil_r, <- app_assoc. apply skipn_length_app.
Qed.

Lemma teardown_keeps_failure {S} (body teardown : M S unit) (rt : Runtime)
    (w : World S) (e : JsError) :
  fst (body rt w) = Thrown e ->
  fst (run_with_teardown body teardown rt w) = Thrown e.
Proof.
  unfold run_with_teardown. destruct (body rt w) as [[[]|e'] w']; simpl;
    intros H; [discriminate H|]. destruct (teardown rt w'). exact H.
Qed.

Lemma catch_block_keeps_world {S} (codes : list Z) (error : JsError)
    (rt : Runtime) (w : World S) :
  snd (NegativeTests.catch_block codes error rt w) = w.
Proof.
  unfold NegativeTests.catch_block, bind, NegativeTests.error_response,
    NegativeTests.data_code, expect_toBe, expect_toContain, ret, throw.
  destruct error as [[r|]| | | |]; try reflexivity. simpl.
  destruct (status r =? 400)%Z; simpl; [|reflexivity].
  destruct (body r); simpl; [|reflexivity].
  destruct (existsb _ codes); reflexivity.
Qed.

(** A [try] whose body is an awaited call followed by more statements. *)
Lemma try_pattern {S A} (op : M S A) (rest : M S unit)
    (handler : JsError -> M S unit) (rt : Runtime) (w : World S) :
  try_catch (op ;; rest)%js handler rt w
  = match fst (op rt w) with
    | Returned _ =>
        match fst (rest rt (snd (op rt w))) with
        | Returned x => (Returned x, snd (rest rt (snd (op rt w))))
        | Thrown e => handler e rt (snd (rest rt (snd (op rt w))))
        end
    | Thrown e => handler e rt (snd (op rt w))
    end.
Proof.
  unfold try_catch, bind. destruct (op rt w) as [[a|e] w1]; simpl; [|reflexivity].
  destruct (rest rt w1) as [[x|e] w2]; reflexivity.
Qed.

Lemma user_create_run {S} (userId nickname : string) (rt : Runtime) (w : World S) :
  UserAPI.create userId nickname None rt w
  = (http_reply (vendor rt) (calls w) (user_create_request (process_env rt) userId nickname),
     mkWorld (vars w)
       (calls w ++ [Http (user_create_request (process_env rt) userId nickname)])).
Proof. reflexivity. Qed.

Lemma tc_user_010_run (rt : Runtime) (w : World UserCreateSuite.Vars) :
  let userId := NegativeTests.repeat_a 81 in
  let create := user_create_request (process_env rt) userId "ExceedLengthUser" in
  snd (NegativeTests.tc_user_010 rt w)
  = mkWorld
      match http_reply (vendor rt) (calls w) create with
      | Returned _ => UserCreateSuite.push userId (vars w)
      | Thrown _ => vars w
      end
      (calls w ++ [Http create])
  /\ match http_reply (vendor rt) (calls w) create with
     | Returned _ => fst (NegativeTests.tc_user_010 rt w) = Thrown TypeError
     | Thrown _ => True
     end.
Proof.
  cbv zeta.
  change (NegativeTests.tc_user_010 rt w)
    with (try_catch
            (UserAPI.create (NegativeTests.repeat_a 81) "ExceedLengthUser" None ;;
             modify (UserCreateSuite.push (NegativeTests.repeat_a 81)) ;;
             expect_toBe (JBool true) (JBool false))%js
            (NegativeTests.catch_block [400305; 400110]%Z) rt w).
  rewrite try_pattern, user_create_run.
  destruct (http_reply (vendor rt) (calls w) _) as [r|e].
  - split; reflexivity.
  - cbn [fst snd]. rewrite catch_block_keeps_world. split; [reflexivity | exact I].
Qed.

(** X14. TC-USER-010 followed by the suite's [afterEach]: if the vendor
    unexpectedly accepts the over-long identifier, the test fails, but
    the user was recorded before the failing assertion and its DELETE is
    issued; if the vendor rejects the creation nothing is recorded for it. *)
Theorem unexpected_creation_is_cleaned_up (rt : Runtime)
    (w : World UserCreateSuite.Vars) :
  let env := process_env rt in
  let userId := NegativeTests.repeat_a 81 in
  let create := user_create_request env userId "ExceedLengthUser" in
  let run := run_with_teardown NegativeTests.tc_user_010 UserCreateSuite.afterEach in
  String.length userId = 81
  /\ issued run rt w
     = Http create ::
       map (user_cleanup env)
         (UserCreateSuite.createdUserIds (vars w)
          ++ match http_reply (vendor rt) (calls w) create with
             | Returned _ => [userId]
             | Thrown _ => []
             end)
  /\ match http_reply (vendor rt) (calls w) create with
     | Returned _ => fst (run rt w) = Thrown TypeError
     | Thrown _ => True
     end.
Proof.
  cbv zeta. split; [reflexivity|].
  destruct (tc_user_010_run rt w) as [Hw Hf]. cbv zeta in Hw, Hf.
  split.
  - unfold issued. rewrite teardown_always_runs, user_afterEach_run, Hw.
    cbn [snd vars calls]. rewrite <- app_assoc.
    rewrite skipn_length_app.
    destruct (http_reply (vendor rt) (calls w) _); [reflexivity|].
    rewrite app_nil_r. reflexivity.
  - destruct (http_reply (vendor rt) (calls w) _); [|exact I].
    apply teardown_keeps_failure, Hf.
Qed.

End LifecycleFacts.

(* ===================================================================== *)
(** * Further properties: verdicts of the tolerant and the strict tests *)
(* ===================================================================== *)

Module VerdictFacts.
Import Js Remote Remote.Notations SendbirdApi Uri Observe Coerce HookFacts TestId.

Lemma strict_eqb_num (v : JsVal) (n : Z) : strict_eqb v (JNum n) = true <-> v = JNum n.
Proof.
  destruct v; simpl; split; try discriminate.
  - intros H. apply Z.eqb_eq in H. now subst.
  - intros H. injection H as ->. apply Z.eqb_refl.
Qed.

(** The [catch] block that checks the status only. *)
Lemma status_only_catch {S} (error : JsError) (rt : Runtime) (w : World S) :
  (fst ((r <- NegativeTests.error_response error ;;
         expect_toBe (JNum (status r)) (JNum 400))%js rt w) = Returned tt
   <-> exists r, error = AxiosError (Some r) /\ status r = 400%Z)
  /\ snd ((r <- NegativeTests.error_response error ;;
           expect_toBe (JNum (status r)) (JNum 400))%js rt w) = w.
Proof.
  unfold bind, NegativeTests.error_response, expect_toBe, ret, throw.
  destruct error as [[r|]| | | |]; simpl;
    try (split; [split; [discriminate | intros (? & H & _); discriminate H] | reflexivity]).
  destruct (Z.eqb_spec (status r) 400) as [Hs|Hs]; simpl; split; try reflexivity.
  - split; [eauto | reflexivity].
  - split; [discriminate|]. intros (r' & H & Hs'). injection H as <-. contradiction.
Qed.

Lemma channel_create_run {S} (name : string) (userIds : list string)
    (rt : Runtime) (w : World S) :
  ChannelAPI.create name userIds None rt w
  = (http_reply (vendor rt) (calls w) (channel_create_request (process_env rt) name userIds),
     mkWorld (vars w)
       (calls w ++ [Http (channel_create_request (process_env rt) name userIds)])).
Proof. reflexivity. Qed.

Lemma channel_get_run {S} (channelUrl : string) (rt : Runtime) (w : World S) :
  ChannelAPI.get channelUrl rt w
  = (http_reply (vendor rt) (calls w) (channel_get_request (process_env rt) channelUrl),
     mkWorld (vars w)
       (calls w ++ [Http (channel_get_request (process_env rt) channelUrl)])).
Proof. reflexivity. Qed.



(** X16. TC-CHANNEL-009 passes whenever the creation resolves, and
    otherwise exactly when it is rejected with a response of status 400.
    It never records the channel: the suite's [afterAll] that follows
    issues DELETEs for the channels recorded before and none for a
    channel this test created. *)
Theorem tc_channel_009_never_records (rt : Runtime)
    (w : World ChannelCreateSuite.Vars) :
  let req := channel_create_request (process_env rt) "EmptyUserChannel" [] in
  let out := ChannelCreateTests.tc_channel_009 rt w in
  let run := run_with_teardown ChannelCreateTests.tc_channel_009
               ChannelCreateSuite.afterAll in
  (fst out = Returned tt
   <-> match http_reply (vendor rt) (calls w) req with
       | Returned _ => True
       | Thrown e => exists r, e = AxiosError (Some r) /\ status r = 400%Z
       end)
  /\ snd out = mkWorld (vars w) (calls w ++ [Http req])
  /\ filter (deletes_under "/group_channels/") (issued run rt w)
     = map (channel_cleanup (process_env rt))
         (ChannelCreateSuite.createdChannelUrls (vars w)).
Proof.
  cbv zeta.
  assert (Hout : (fst (ChannelCreateTests.tc_channel_009 rt w) = Returned tt
                  <-> match http_reply (vendor rt) (calls w)
                              (channel_create_request (process_env rt) "EmptyUserChannel" []) with
                      | Returned _ => True
                      | Thrown e => exists r, e = AxiosError (Some r) /\ status r = 400%Z
                      end)
                 /\ snd (ChannelCreateTests.tc_channel_009 rt w)
                    = mkWorld (vars w)
                        (calls w ++ [Http (channel_create_request (process_env rt)
                                             "EmptyUserChannel" [])])).
  { unfold ChannelCreateTests.tc_channel_009. rewrite LifecycleFacts.try_pattern.
    rewrite channel_create_run.
    destruct (http_reply (vendor rt) (calls w) _) as [r|e]; cbn [fst snd].
    - split; [split; auto | reflexivity].
    - destruct (status_only_catch e rt
                  (mkWorld (vars w)
                     (calls w ++ [Http (channel_create_request (process_env rt)
                                          "EmptyUserChannel" [])]))) as [Hv Hw].
      split; [exact Hv | exact Hw]. }
  destruct Hout as [Hv Hw]. split; [exact Hv|]. split; [exact Hw|].
  unfold issued. rewrite teardown_always_runs, channel_afterAll_run, Hw.
  cbn [snd vars calls]. rewrite <- app_assoc, skipn_length_app.
  cbn [app filter deletes_under channel_create_request post_request method].
  rewrite filter_app, filter_deletes_channels.
  match goal with |- _ ++ filter _ ?t = _ => assert (Ht : filter (deletes_under "/group_channels/") t = []) end.
  { match goal with
    | |- filter _ (match ?x with Returned _ => _ | Thrown _ => _ end) = _ => destruct x
    end; reflexivity. }
  rewrite Ht. apply app_nil_r.
Qed.

(** X17. TC-CHANNEL-012 checks the status only: it passes exactly when
    the read is rejected with a response of status 400, whatever vendor
    code or body comes with it; a read that resolves, or an error without
    a response, fails it. *)
Theorem tc_channel_012_verdict (S : Type) (rt : Runtime) (w : World S) :
  let url := ("non_existent_channel_" ++ number_to_string (date_now rt (calls w)))%string in
  let req := channel_get_request (process_env rt) url in
  issued (@ChannelCreateTests.tc_channel_012 S) rt w = [Http req]
  /\ (fst (@ChannelCreateTests.tc_channel_012 S rt w) = Returned tt
      <-> exists r, http_reply (vendor rt) (calls w) req = Thrown (AxiosError (Some r))
                    /\ status r = 400%Z).
Proof.
  cbv zeta. unfold issued, ChannelCreateTests.tc_channel_012.
  rewrite NegativeFacts.bind_Date_now, LifecycleFacts.try_pattern, channel_get_run.
  destruct (http_reply (vendor rt) (calls w) _) as [r|e]; cbn [fst snd].
  - simpl. split; [apply skipn_length_app|].
    split; [discriminate | intros (? & H & _); discriminate H].
  - destruct (status_only_catch e rt
                (mkWorld (vars w)
                   (calls w ++ [Http (channel_get_request (process_env rt)
                      ("non_existent_channel_"
                         ++ number_to_string (date_now rt (calls w)))%string)])))
      as [Hv Hw].
    rewrite Hw. cbn [calls].
    split; [apply skipn_length_app|].
    rewrite Hv. split.
    + intros (r & -> & Hs). eauto.
    + intros (r & H & Hs). injection H as ->. eauto.
Qed.

(** The [catch] block of TC-USER-009. *)
Lemma duplicate_catch (error : JsError) (rt : Runtime)
    (w : World UserCreateSuite.Vars) :
  (fst ((r <- NegativeTests.error_response error ;;
         expect_toBe (JNum (status r)) (JNum 400) ;;
         r <- NegativeTests.error_response error ;;
         code <- NegativeTests.data_code r ;;
         expect_toBe code (JNum 400202))%js rt w) = Returned tt
   <-> exists r b, error = AxiosError (Some r) /\ status r = 400%Z
                   /\ body r = Some b /\ get_prop "code" b = JNum 400202)
  /\ snd ((r <- NegativeTests.error_response error ;;
           expect_toBe (JNum (status r)) (JNum 400) ;;
           r <- NegativeTests.error_response error ;;
           code <- NegativeTests.data_code r ;;
           expect_toBe code (JNum 400202))%js rt w) = w.
Proof.
  unfold bind, NegativeTests.error_response, NegativeTests.data_code,
    expect_toBe, ret, throw.
  destruct error as [[r|]| | | |]; simpl;
    try (split; [split; [discriminate | intros (? & ? & H & _); discriminate H]
                | reflexivity]).
  destruct (Z.eqb_spec (status r) 400) as [Hs|Hs]; simpl.
  - destruct (body r) as [b|] eqn:Hb; simpl.
    + destruct (strict_eqb (get_prop "code" b) (JNum 400202)) eqn:Hc; simpl;
        (split; [|reflexivity]).
      * apply strict_eqb_num in Hc.
        split; [intros _; exists r, b; auto | reflexivity].
      * split; [discriminate|].
        intros (r' & b' & H & _ & Hb' & Hc'). injection H as <-.
        rewrite Hb in Hb'. injection Hb' as <-.
        apply strict_eqb_num in Hc'. congruence.
    + split; [|reflexivity]. split; [discriminate|].
      intros (r' & b' & H & _ & Hb' & _). injection H as <-. congruence.
  - split; [|reflexivity]. split; [discriminate|].
    intros (r' & b' & H & Hs' & _). injection H as <-. contradiction.
Qed.

Lemma bind_modify {S A} (f : S -> S) (k : unit -> M S A) (rt : Runtime) (w : World S) :
  bind (modify f) k rt w = k tt rt (mkWorld (f (vars w)) (calls w)).
Proof. reflexivity. Qed.

Lemma bind_run {S A B} (m : M S A) (k : A -> M S B) (rt : Runtime) (w : World S) :
  bind m k rt w
  = match fst (m rt w) with
    | Returned a => k a rt (snd (m rt w))
    | Thrown e => (Thrown e, snd (m rt w))
    end.
Proof. unfold bind. destruct (m rt w) as [[a|e] w']; reflexivity. Qed.

Lemma tc_user_009_run (c : Clock) (rt : Runtime) (w : World UserCreateSuite.Vars) :
  let env := process_env rt in
  let userId := generateTestId_api (Some "user") c in
  let first := user_create_request env userId "FirstUser" in
  let second := user_create_request env userId "DuplicateUser" in
  let w2 := mkWorld (UserCreateSuite.push userId (vars w))
              ((calls w ++ [Http first]) ++ [Http second]) in
  UserCreateTests.tc_user_009 c rt w
  = match http_reply (vendor rt) (calls w) first with
    | Thrown e => (Thrown e, mkWorld (vars w) (calls w ++ [Http first]))
    | Returned _ =>
        match http_reply (vendor rt) (calls w ++ [Http first]) second with
        | Returned _ => (Thrown TypeError, w2)
        | Thrown e =>
            (fst ((r <- NegativeTests.error_response e ;;
                   expect_toBe (JNum (status r)) (JNum 400) ;;
                   r <- NegativeTests.error_response e ;;
                   code <- NegativeTests.data_code r ;;
                   expect_toBe code (JNum 400202))%js rt w2), w2)
        end
    end.
Proof.
  cbv zeta. unfold UserCreateTests.tc_user_009.
  rewrite bind_run, LifecycleFacts.user_create_run. cbn [fst snd].
  destruct (http_reply (vendor rt) (calls w) _) as [r1|e1]; [|reflexivity].
  rewrite bind_modify. cbn [vars calls].
  rewrite LifecycleFacts.try_pattern, LifecycleFacts.user_create_run. cbn [fst snd vars calls].
  destruct (http_reply (vendor rt) (calls w ++ _) _) as [r2|e2]; [reflexivity|].
  rewrite (surjective_pairing (_ rt _)) at 1.
  f_equal. apply duplicate_catch.
Qed.

(** X18. TC-USER-009 passes exactly when its first creation resolves and
    the second, with the same identifier, is rejected with a response of
    status 400 whose vendor code is the number 400202. The identifier is
    recorded for cleanup exactly when the first creation resolved, and the
    second request is issued only then. *)
Theorem tc_user_009_verdict (c : Clock) (rt : Runtime)
    (w : World UserCreateSuite.Vars) :
  let env := process_env rt in
  let userId := generateTestId_api (Some "user") c in
  let first := user_create_request env userId "FirstUser" in
  let second := user_create_request env userId "DuplicateUser" in
  let out := UserCreateTests.tc_user_009 c rt w in
  (fst out = Returned tt
   <-> (exists r1, http_reply (vendor rt) (calls w) first = Returned r1)
       /\ exists r b,
            http_reply (vendor rt) (calls w ++ [Http first]) second
              = Thrown (AxiosError (Some r))
            /\ status r = 400%Z
            /\ body r = Some b
            /\ get_prop "code" b = JNum 400202)
  /\ UserCreateSuite.createdUserIds (vars (snd out))
     = UserCreateSuite.createdUserIds (vars w)
       ++ match http_reply (vendor rt) (calls w) first with
          | Returned _ => [userId]
          | Thrown _ => []
          end
  /\ issued (UserCreateTests.tc_user_009 c) rt w
     = Http first ::
       match http_reply (vendor rt) (calls w) first with
       | Returned _ => [Http second]
       | Thrown _ => []
       end.
Proof.
  cbv zeta. unfold issued. rewrite tc_user_009_run. cbv zeta.
  destruct (http_reply (vendor rt) (calls w) _) as [r1|e1].
  - destruct (http_reply (vendor rt) (calls w ++ _) _) as [r2|e2];
      cbn [fst snd vars calls UserCreateSuite.push UserCreateSuite.createdUserIds].
    + split; [|split; [reflexivity|]].
      * split; [discriminate | intros (_ & ? & ? & H & _); discriminate H].
      * rewrite <- app_assoc. apply skipn_length_app.
    + split; [|split; [reflexivity|]].
      * match goal with
        | |- fst (?m rt ?w0) = _ <-> _ =>
            destruct (duplicate_catch e2 rt w0) as [Hv _]
        end.
        rewrite Hv. split.
        -- intros (r & b & -> & H). split; [eauto|]. exists r, b. auto.
        -- intros (_ & r & b & H & H'). injection H as ->. eauto.
      * rewrite <- app_assoc. apply skipn_length_app.
  - cbn [fst snd vars calls]. split; [|split; [now rewrite app_nil_r|]].
    + split; [discriminate | intros ((? & H) & _); discriminate H].
    + apply skipn_length_app.
Qed.



End VerdictFacts.

(* ===================================================================== *)
(** * Further properties: the data-driven tests and generated identifiers *)
(* ===================================================================== *)

Module DataDrivenFacts.
Import Js Remote Remote.Notations SendbirdApi Uri Observe Coerce HookFacts TestId.

(** X20. A data-driven test deletes the user it created only at its end:
    the DELETE is issued exactly when the creation resolved and both
    assertions on the response held. A user created by a run whose
    assertion fails is left behind, and no hook of the suite removes it. *)
Theorem data_driven_test_cleans_up_only_on_success (S : Type) (id nick : string)
    (rt : Runtime) (w : World S) :
  let create := user_create_request (process_env rt) id nick in
  issued (UserDataDriven.tc_user_024 id nick) rt w
  = Http create ::
    match http_reply (vendor rt) (calls w) create with
    | Returned r =>
        if UserDataDriven.assertions_hold id r
        then [user_cleanup (process_env rt) id]
        else []
    | Thrown _ => []
    end.
Proof.
  cbv zeta. unfold issued, UserDataDriven.tc_user_024.
  rewrite VerdictFacts.bind_run, LifecycleFacts.user_create_run. cbn [fst snd].
  destruct (http_reply (vendor rt) (calls w) _) as [r|e];
    [|cbn [snd calls]; apply skipn_length_app].
  unfold UserDataDriven.assertions_hold, expect_toBe, UserCreateSuite.data_prop,
    bind, UserAPI.delete, client_delete, axios_request, http, ret, throw.
  cbn [strict_eqb].
  destruct (status r =? 200)%Z; cbn [andb fst snd calls];
    [|apply skipn_length_app].
  destruct (body r) as [b|]; cbn [fst snd calls]; [|apply skipn_length_app].
  destruct (strict_eqb (get_prop "user_id" b) (JStr id)); cbn [fst snd calls];
    [|apply skipn_length_app].
  destruct (http_reply (vendor rt) _ _); cbn [fst snd calls];
    rewrite <- app_assoc; apply skipn_length_app.
Qed.

Lemma forallb_append (p : ascii -> bool) (a b : string) :
  string_forallb p (a ++ b) = string_forallb p a && string_forallb p b.
Proof.
  induction a as [|c a IH]; simpl; [reflexivity|].
  rewrite IH. apply andb_assoc.
Qed.

Lemma encodeURIComponent_unreserved (s : string) :
  string_forallb uri_unreserved s = true -> encodeURIComponent s = s.
Proof.
  induction s as [|c s IH]; [reflexivity|].
  cbn [string_forallb]. intros H. apply andb_prop in H as [Hc Hs].
  rewrite EncodingFacts.encodeURIComponent_cons, Hc, (IH Hs). reflexivity.
Qed.

Lemma digits_unreserved (s : string) :
  all_digits s = true -> string_forallb uri_unreserved s = true.
Proof.
  induction s as [|c s IH]; [reflexivity|].
  cbn [all_digits string_forallb]. intros H. apply andb_prop in H as [Hc Hs].
  rewrite (IH Hs), andb_true_r.
  unfold uri_unreserved. rewrite Hc. now rewrite orb_true_r.
Qed.

(** X21. An identifier generated from a prefix of unreserved characters
    and a random token of unreserved characters (the digits and letters of
    base 36) needs no escaping: the path of its requests is the fixed
    prefix followed by the identifier itself. *)
Theorem generated_id_needs_no_escaping (p : string) (c : Clock) :
  string_forallb uri_unreserved p = true ->
  string_forallb uri_unreserved (randomToken c) = true ->
  encodeURIComponent (generateTestId p c) = generateTestId p c
  /\ forall env,
       url (user_cleanup_request env (generateTestId p c))
       = ("/users/" ++ generateTestId p c)%string.
Proof.
  intros Hp Ht.
  assert (E : encodeURIComponent (generateTestId p c) = generateTestId p c).
  { apply encodeURIComponent_unreserved. unfold generateTestId.
    rewrite !forallb_append, Hp, Ht.
    rewrite (digits_unreserved _ (TestIdFacts.number_to_string_digits (now c))).
    reflexivity. }
  split; [exact E|]. intros env. simpl. now rewrite E.
Qed.

(** X21 at the identifier of the examples. *)
Lemma generated_id_needs_no_escaping_witness :
  string_forallb uri_unreserved "user" = true
  /\ string_forallb uri_unreserved
       (randomToken {| now := 1700000000000; random36 := "0.4fzyo82mvyr" |}) = true
  /\ encodeURIComponent
       (generateTestId "user" {| now := 1700000000000; random36 := "0.4fzyo82mvyr" |})
     = generateTestId "user" {| now := 1700000000000; random36 := "0.4fzyo82mvyr" |}
  /\ forall env,
       url (user_cleanup_request env
              (generateTestId "user" {| now := 1700000000000; random36 := "0.4fzyo82mvyr" |}))
       = ("/users/" ++ generateTestId "user"
                         {| now := 1700000000000; random36 := "0.4fzyo82mvyr" |})%string.
Proof.
  split; [reflexivity | split; [reflexivity|]].
  apply (generated_id_needs_no_escaping "user"
           {| now := 1700000000000; random36 := "0.4fzyo82mvyr" |});
    reflexivity.
Defined.

End DataDrivenFacts.
